(** * oktopus / pyMLE: likelihoods, Fisher information and the L1 loss

    A shallow embedding of [src/pyMLE/core.py] and [src/oktopus/loss.py].

    - Python exceptions are values of [exn]; a computation that may raise
      returns a [result].
    - A numpy value is a 0-d scalar or a 1-d array ([nd]); element-wise
      operators follow numpy's broadcasting rule for these shapes.
    - Double-precision arithmetic is an interface ([Float64], [Libm]) without
      algebraic laws: nothing below uses associativity, commutativity or
      distributivity, none of which binary64 has.  Two instances follow the
      embedding: the kernel's binary64 floats, and symbolic terms.
    - The collaborators that are not part of the repository
      (autograd's [jacobian], scipy's [minimize], [numpy.linalg.inv], the
      contents of an [np.empty] buffer) are the fields of [Providers]. *)

From Stdlib Require Import Floats ZArith.
From stdpp Require Import base list strings.

Set Default Proof Using "Type".
Local Open Scope string_scope.

(** ** Exceptions and results *)

(** The Python exceptions the two modules can raise.  The source defines no
    exception class of its own. *)
Inductive exn : Type :=
  | AttributeError (cls attr : string)
      (* 'cls' object has no attribute 'attr' *)
  | TypeError (msg : string)
  | NameError (name : string)
      (* name 'name' is not defined *)
  | IndexError (msg : string)
  | ValueError (msg : string)
      (* numpy: operands could not be broadcast together *)
  | LinAlgError (msg : string).
      (* numpy.linalg: Singular matrix *)

(** The class name of an exception, as [type(e).__name__] shows it. *)
Definition exc_class (e : exn) : string :=
  match e with
  | AttributeError _ _ => "AttributeError"
  | TypeError _ => "TypeError"
  | NameError _ => "NameError"
  | IndexError _ => "IndexError"
  | ValueError _ => "ValueError"
  | LinAlgError _ => "LinAlgError"
  end.

Inductive result (A : Type) : Type :=
  | Ok (a : A)
  | Raise (e : exn).
Arguments Ok {A} a.
Arguments Raise {A} e.

Definition rbind {A B} (m : result A) (k : A -> result B) : result B :=
  match m with
  | Ok a => k a
  | Raise e => Raise e
  end.

Notation "'let!' x ':=' m 'in' k" := (rbind m (fun x => k))
  (at level 10, x name, m at level 100, k at level 200).

Definition is_ok {A} (m : result A) : bool :=
  match m with Ok _ => true | Raise _ => false end.

(** A [for] statement over a list of indices whose body may raise. *)
Fixpoint for_each {St} (body : nat -> St -> result St) (l : list nat)
    (s : St) : result St :=
  match l with
  | [] => Ok s
  | i :: l' => let! s' := body i s in for_each body l' s'
  end.

(** ** Double-precision scalars *)

Class Float64 (F : Type) : Type := {
  fzero : F;
  fadd : F -> F -> F;
  fsub : F -> F -> F;
  fmul : F -> F -> F;
  fdiv : F -> F -> F;
  fneg : F -> F;
  fabs : F -> F;
  fsqrt : F -> F;
  fisnan : F -> bool;
  (* numpy's add-reduction of a 1-d array (its summation order is numpy's) *)
  fsum : list F -> F
}.

Class Libm (F : Type) : Type := {
  flog : F -> F
}.

(** ** numpy values: 0-d scalars and 1-d arrays *)

Inductive nd (F : Type) : Type :=
  | Num (x : F)
  | Arr (xs : list F).
Arguments Num {F} x.
Arguments Arr {F} xs.

(** An argument of a call to a user function: a scalar (an element of an
    unpacked [*params]) or one sequence object (a tuple slice). *)
Inductive arg (F : Type) : Type :=
  | ArgNum (x : F)
  | ArgSeq (xs : list F).
Arguments ArgNum {F} x.
Arguments ArgSeq {F} xs.

(** A user-supplied model: called on its positional arguments, it returns a
    numpy value or raises. *)
Definition callable (F : Type) : Type := list (arg F) -> result (nd F).

(** [f( *params)]: one positional scalar per parameter. *)
Definition unpack {F} (params : list F) : list (arg F) := map ArgNum params.

(** A 2-d array, as the list of its rows. *)
Abbreviation matrix F := (list (list F)) (only parsing).

Section Numpy.
Context {F : Type} {F64 : Float64 F}.

Definition nd_map (f : F -> F) (a : nd F) : nd F :=
  match a with
  | Num x => Num (f x)
  | Arr xs => Arr (map f xs)
  end.

(** An element-wise binary operator on 0-d and 1-d operands. *)
Definition broadcast2 (op : F -> F -> F) (a b : nd F) : result (nd F) :=
  match a, b with
  | Num x, Num y => Ok (Num (op x y))
  | Num x, Arr ys => Ok (Arr (map (op x) ys))
  | Arr xs, Num y => Ok (Arr (map (fun x => op x y) xs))
  | Arr xs, Arr ys =>
      if decide (length xs = length ys) then Ok (Arr (zip_with op xs ys))
      else match xs, ys with
           | [x], _ => Ok (Arr (map (op x) ys))
           | _, [y] => Ok (Arr (map (fun x => op x y) xs))
           | _, _ => Raise (ValueError "operands could not be broadcast together")
           end
  end.

(** [a.sum()] *)
Definition nd_sum (a : nd F) : F :=
  match a with
  | Num x => x
  | Arr xs => fsum xs
  end.

(** [np.nansum(a)]: the sum with every NaN replaced by zero. *)
Definition nan_to_zero (x : F) : F := if fisnan x then fzero else x.
Definition np_nansum (a : nd F) : F := nd_sum (nd_map nan_to_zero a).

(** [np.diag(m)] of a 2-d array: its main diagonal. *)
Fixpoint diag_from (k : nat) (m : matrix F) : list F :=
  match m with
  | [] => []
  | row :: m' =>
      match row !! k with
      | Some x => x :: diag_from (S k) m'
      | None => []
      end
  end.
Definition np_diag (m : matrix F) : list F := diag_from 0 m.

(** [c * m] for a scalar [c] and a 2-d array [m]. *)
Definition scale (c : F) (m : matrix F) : matrix F := map (map (fmul c)) m.

(** [m[i, j] = v] *)
Definition set_item (i j : nat) (v : F) (m : matrix F) : matrix F :=
  match m !! i with
  | Some row => <[i := <[j := v]> row]> m
  | None => m
  end.

(** [m[i, j]] *)
Definition get_item (m : matrix F) (i j : nat) : option F :=
  row ← m !! i; row !! j.

End Numpy.

(** ** scipy's [OptimizeResult] *)

Record OptimizeResult (F : Type) : Type := {
  x : list F;          (* the solution *)
  success : bool;      (* whether the optimizer exited successfully *)
  message : string;
  nit : nat;
  final_fun : F        (* [fun]: the objective at [x] *)
}.
Arguments x {F} _.
Arguments success {F} _.
Arguments message {F} _.
Arguments nit {F} _.
Arguments final_fun {F} _.

(** ** The collaborators outside the repository *)

Class Providers (F : Type) : Type := {
  (* the solver options passed through [**kwargs] *)
  kwargs : Type;
  (* [autograd.jacobian(f, argnum=i)] *)
  jacobian : callable F -> nat -> callable F;
  (* [scipy.optimize.minimize(fun, x0=, method=, **kwargs)] *)
  minimize :
    (list F -> result F) -> nd F -> string -> kwargs -> result (OptimizeResult F);
  (* [numpy.linalg.inv]: [None] when it raises [LinAlgError] *)
  np_linalg_inv : matrix F -> option (matrix F);
  (* what the memory of a fresh [np.empty] buffer holds at [i, j] *)
  uninit : nat -> nat -> F
}.

Definition np_empty {F} {PR : Providers F} (rows cols : nat) : matrix F :=
  map (fun i => map (uninit i) (seq 0 cols)) (seq 0 rows).

(** ** Calling a method *)

(** Binding the positional arguments of a call to the formal parameters of a
    [def].  [obj.m()] passes [obj] as the first positional argument. *)
Definition bind_positional {V} (formals : list string) (actuals : list V)
  : result (list (string * V)) :=
  if decide (length formals = length actuals) then Ok (zip formals actuals)
  else Raise (TypeError "wrong number of positional arguments").

(** Reading a name inside a function body: a formal parameter, else (the
    source binds no such name at module level) [NameError]. *)
Fixpoint lookup_name {V} (name : string) (env : list (string * V)) : result V :=
  match env with
  | [] => Raise (NameError name)
  | (n, v) :: env' => if decide (n = name) then Ok v else lookup_name name env'
  end.

(** [l[i]] on a Python list. *)
Definition list_getitem {A} (l : list A) (i : nat) : result A :=
  match l !! i with
  | Some a => Ok a
  | None => Raise (IndexError "list index out of range")
  end.

(** ** src/pyMLE/core.py *)

Module core.

Record MultinomialLikelihood (F : Type) : Type := {
  mn_data : list F;
  mn_pmf : callable F;
  mn_opt_result : option (OptimizeResult F)
}.
Arguments mn_data {F} _.
Arguments mn_pmf {F} _.
Arguments mn_opt_result {F} _.

Record PoissonLikelihood (F : Type) : Type := {
  po_data : list F;
  po_mean : callable F;
  po_opt_result : option (OptimizeResult F)
}.
Arguments po_data {F} _.
Arguments po_mean {F} _.
Arguments po_opt_result {F} _.

Section Defs.
Context {F : Type} {F64 : Float64 F} {LM : Libm F} {PR : Providers F}.

(** *** class Likelihood(ABC) *)

(** The abstract methods [evaluate] and [fisher_information_matrix], and
    the instance attribute [opt_result] ([None]: not set). *)
Class Likelihood (T : Type) : Type := {
  evaluate : T -> list F -> result F;
  fisher_information_matrix : T -> result (matrix F);
  opt_result : T -> option (OptimizeResult F);
  set_opt_result : OptimizeResult F -> T -> T
}.

(** [Likelihood.fit(self, x0, method='Nelder-Mead', **kwargs)]: the updated
    instance and what the call returns.  [method = None]: the argument is
    left out. *)
Definition fit {T} {L : Likelihood T} (self : T) (x0 : nd F)
    (method : option string) (kw : kwargs) : T * result (OptimizeResult F) :=
  match minimize (evaluate self) x0 (default "Nelder-Mead" method) kw with
  | Ok r => (set_opt_result r self, Ok r)
  | Raise e => (self, Raise e)
  end.

(** [Likelihood.uncertainties(self)] *)
Definition uncertainties {T} {L : Likelihood T} (self : T) : result (list F) :=
  let! fisher := fisher_information_matrix self in
  match np_linalg_inv fisher with
  | None => Raise (LinAlgError "Singular matrix")
  | Some inv_fisher =>
      let unc := map fsqrt (np_diag inv_fisher) in
      Ok unc
  end.

(** *** The pairwise loops of the two [fisher_information_matrix] methods

    The two methods run the same statements, one on [pmf] and one on
    [mean]; the shared part is written once here. *)

(** [(grad[i]( *opt) * grad[j]( *opt) / f( *opt)).sum()] *)
Definition pairwise_term (grad : list (callable F)) (f : callable F)
    (opt_params : list F) (i j : nat) : result F :=
  let! gi := list_getitem grad i in
  let! a := gi (unpack opt_params) in
  let! gj := list_getitem grad j in
  let! b := gj (unpack opt_params) in
  let! ab := broadcast2 fmul a b in
  let! p := f (unpack opt_params) in
  let! q := broadcast2 fdiv ab p in
  Ok (nd_sum q).

(** The body of the inner loop:
    [fisher[i, j] = ...; fisher[j, i] = fisher[i, j]]. *)
Definition pair_step (grad : list (callable F)) (f : callable F)
    (opt_params : list F) (i j : nat) (fisher : matrix F)
  : result (matrix F) :=
  let! v := pairwise_term grad f opt_params i j in
  let fisher := set_item i j v fisher in
  match get_item fisher i j with
  | Some w => Ok (set_item j i w fisher)
  | None => Raise (IndexError "index out of bounds")
  end.

(** From [n_params = len(self.opt_result.x)] to the end of the loops. *)
Definition fisher_loops (f : callable F) (opt : OptimizeResult F)
  : result (matrix F) :=
  let n_params := length (x opt) in
  let fisher := np_empty n_params n_params in
  let opt_params := x opt in
  (* for i in range(n_params): grad.append(jacobian(f, argnum=i)) *)
  let grad := map (jacobian f) (seq 0 n_params) in
  for_each
    (fun i fisher =>
       for_each (pair_step grad f opt_params i) (seq i (n_params - i)) fisher)
    (seq 0 n_params) fisher.

(** *** class MultinomialLikelihood(Likelihood) *)

(** [__init__(self, data, pmf)]: no [opt_result] attribute yet. *)
Definition MultinomialLikelihood_init (data : list F) (pmf : callable F)
  : MultinomialLikelihood F :=
  {| mn_data := data; mn_pmf := pmf; mn_opt_result := None |}.

(** The property [n_counts]: [self.data.sum()]. *)
Definition n_counts (self : MultinomialLikelihood F) : F := fsum (mn_data self).

(** [- (self.data * np.log(self.pmf( *params))).sum()] *)
Definition MultinomialLikelihood_evaluate (self : MultinomialLikelihood F)
    (params : list F) : result F :=
  let! p := mn_pmf self (unpack params) in
  let! t := broadcast2 fmul (Arr (mn_data self)) (nd_map flog p) in
  Ok (fneg (nd_sum t)).

(** [def fisher_information_matrix(self):] *)
Definition MultinomialLikelihood_fisher_information_matrix
    (actual : MultinomialLikelihood F) : result (matrix F) :=
  let! env := bind_positional ["self"] [actual] in
  let! self := lookup_name "self" env in
  let! opt :=
    match mn_opt_result self with
    | Some r => Ok r
    | None => Raise (AttributeError "MultinomialLikelihood" "opt_result")
    end in
  let! fisher := fisher_loops (mn_pmf self) opt in
  let fisher := scale (n_counts self) fisher in
  Ok fisher.

#[export] Instance MultinomialLikelihood_Likelihood
  : Likelihood (MultinomialLikelihood F) := {
  evaluate := MultinomialLikelihood_evaluate;
  fisher_information_matrix := MultinomialLikelihood_fisher_information_matrix;
  opt_result := mn_opt_result;
  set_opt_result r self :=
    {| mn_data := mn_data self; mn_pmf := mn_pmf self;
       mn_opt_result := Some r |}
}.

(** *** class PoissonLikelihood(Likelihood) *)

Definition PoissonLikelihood_init (data : list F) (mean : callable F)
  : PoissonLikelihood F :=
  {| po_data := data; po_mean := mean; po_opt_result := None |}.

(** [(self.mean( *params) - self.data * np.log(self.mean( *params))).sum()] *)
Definition PoissonLikelihood_evaluate (self : PoissonLikelihood F)
    (params : list F) : result F :=
  let! m1 := po_mean self (unpack params) in
  let! m2 := po_mean self (unpack params) in
  let! t := broadcast2 fmul (Arr (po_data self)) (nd_map flog m2) in
  let! d := broadcast2 fsub m1 t in
  Ok (nd_sum d).

(** [def fisher_information_matrix():] -- the [def] lists no parameter, so
    [self] in its body is not a formal parameter. *)
Definition PoissonLikelihood_fisher_information_matrix
    (actual : PoissonLikelihood F) : result (matrix F) :=
  let! env := bind_positional [] [actual] in
  let! self := lookup_name "self" env in
  let! opt :=
    match po_opt_result self with
    | Some r => Ok r
    | None => Raise (AttributeError "PoissonLikelihood" "opt_result")
    end in
  let! fisher := fisher_loops (po_mean self) opt in
  Ok fisher.

#[export] Instance PoissonLikelihood_Likelihood
  : Likelihood (PoissonLikelihood F) := {
  evaluate := PoissonLikelihood_evaluate;
  fisher_information_matrix := PoissonLikelihood_fisher_information_matrix;
  opt_result := po_opt_result;
  set_opt_result r self :=
    {| po_data := po_data self; po_mean := po_mean self;
       po_opt_result := Some r |}
}.

End Defs.
End core.

(** ** src/oktopus/loss.py *)

Module loss.

(** The two methods [__init__] can bind to [self._evaluate]. *)
Inductive bound_evaluate : Type :=
  | evaluate_wo_regularization
  | evaluate_w_regularization.

Record L1Norm (F : Type) : Type := {
  data : list F;
  model : callable F;
  _regularization : option (callable F);
  _evaluate : bound_evaluate;
  l1_opt_result : option (OptimizeResult F)
}.
Arguments data {F} _.
Arguments model {F} _.
Arguments _regularization {F} _.
Arguments _evaluate {F} _.
Arguments l1_opt_result {F} _.

Section Defs.
Context {F : Type} {F64 : Float64 F} {PR : Providers F}.

(** *** class LossFunction(ABC) *)

Class LossFunction (T : Type) : Type := {
  evaluate : T -> list F -> result F;
  opt_result : T -> option (OptimizeResult F);
  set_opt_result : OptimizeResult F -> T -> T
}.

(** [LossFunction.__call__] *)
Definition call {T} {L : LossFunction T} (self : T) (params : list F) : result F :=
  evaluate self params.

(** [LossFunction.fit(self, x0, method='Nelder-Mead', **kwargs)] *)
Definition fit {T} {L : LossFunction T} (self : T) (x0 : nd F)
    (method : option string) (kw : kwargs) : T * result (OptimizeResult F) :=
  match minimize (evaluate self) x0 (default "Nelder-Mead" method) kw with
  | Ok r => (set_opt_result r self, Ok r)
  | Raise e => (self, Raise e)
  end.

(** *** class L1Norm(LossFunction) *)

(** The property [regularization] and its setter. *)
Definition regularization (self : L1Norm F) : option (callable F) :=
  _regularization self.

Definition set_regularization (func : option (callable F)) (self : L1Norm F)
  : L1Norm F :=
  {| data := data self; model := model self;
     _regularization := match func with Some f => Some f | None => None end;
     _evaluate := _evaluate self;
     l1_opt_result := l1_opt_result self |}.

(** [__init__(self, data, model, regularization=None)] *)
Definition L1Norm_init (d : list F) (m : callable F)
    (reg : option (callable F)) : L1Norm F :=
  let self :=
    set_regularization reg
      {| data := d; model := m; _regularization := None;
         _evaluate := evaluate_wo_regularization; l1_opt_result := None |} in
  {| data := data self; model := model self;
     _regularization := _regularization self;
     _evaluate := match regularization self with
                  | None => evaluate_wo_regularization
                  | Some _ => evaluate_w_regularization
                  end;
     l1_opt_result := l1_opt_result self |}.

(** [np.nansum(np.absolute(self.data - self.model( *params)))] *)
Definition L1Norm_evaluate_wo_regularization (self : L1Norm F)
    (params : list F) : result F :=
  let! m := model self (unpack params) in
  let! r := broadcast2 fsub (Arr (data self)) m in
  Ok (np_nansum (nd_map fabs r)).

(** [params[-1]] on the tuple [params]. *)
Definition last_item (params : list F) : result F :=
  match last params with
  | Some w => Ok w
  | None => Raise (IndexError "tuple index out of range")
  end.

(** [np.nansum(np.absolute(self.data - self.model(params[:-1]))
               + params[-1] * self.regularization(params[:-1]))] *)
Definition L1Norm_evaluate_w_regularization (self : L1Norm F)
    (params : list F) : result F :=
  let! m := model self [ArgSeq (removelast params)] in
  let! r := broadcast2 fsub (Arr (data self)) m in
  let a := nd_map fabs r in
  let! w := last_item params in
  let! g :=
    match regularization self with
    | Some g => g [ArgSeq (removelast params)]
    | None => Raise (TypeError "'NoneType' object is not callable")
    end in
  let! t := broadcast2 fmul (Num w) g in
  let! s := broadcast2 fadd a t in
  Ok (np_nansum s).

(** [evaluate(self, params)]: [self._evaluate( *params)] *)
Definition L1Norm_evaluate (self : L1Norm F) (params : list F) : result F :=
  match _evaluate self with
  | evaluate_wo_regularization => L1Norm_evaluate_wo_regularization self params
  | evaluate_w_regularization => L1Norm_evaluate_w_regularization self params
  end.

#[export] Instance L1Norm_LossFunction : LossFunction (L1Norm F) := {
  evaluate := L1Norm_evaluate;
  opt_result := l1_opt_result;
  set_opt_result r self :=
    {| data := data self; model := model self;
       _regularization := _regularization self;
       _evaluate := _evaluate self;
       l1_opt_result := Some r |}
}.

End Defs.
End loss.

(** ** Two instances of the scalar interface *)

(** *** The kernel's binary64 floats *)

Module binary64.

#[export] Instance float_Float64 : Float64 float := {
  fzero := 0%float;
  fadd := PrimFloat.add;
  fsub := PrimFloat.sub;
  fmul := PrimFloat.mul;
  fdiv := PrimFloat.div;
  fneg := PrimFloat.opp;
  fabs := PrimFloat.abs;
  fsqrt := PrimFloat.sqrt;
  fisnan := PrimFloat.is_nan;
  (* a short array is added in index order *)
  fsum := fun xs => fold_left PrimFloat.add xs 0%float
}.

(** L1 losses on the data [1, 2] against a model that returns [0, 0], with
    scalar-valued regularizations. *)
Definition zero_model : callable float := fun _ => Ok (Arr [0; 0]%float).
Definition unit_penalty : callable float := fun _ => Ok (Num 1%float).
Definition two_penalty : callable float := fun _ => Ok (Num 2%float).

Definition l1_plain (d : list float) : loss.L1Norm float :=
  loss.L1Norm_init d zero_model None.
Definition l1_penalized : loss.L1Norm float :=
  loss.L1Norm_init [1; 2]%float zero_model (Some unit_penalty).

(** A regularization that returns NaN. *)
Definition nan_penalty : callable float := fun _ => Ok (Num nan).
Definition l1_nan_penalized : loss.L1Norm float :=
  loss.L1Norm_init [1; 2]%float zero_model (Some nan_penalty).

(** The two-parameter model [tri_pmf(a, b) = [a, b, 1 - a - b]] fitted at
    [a = 0.25], [b = 0.5], on two count vectors of the same total. *)
Definition tri_pmf : callable float := fun args =>
  match args with
  | [ArgNum a; ArgNum b] => Ok (Arr [a; b; (1 - a - b)%float])
  | _ => Raise (TypeError "tri_pmf() takes 2 positional arguments")
  end.

Definition tri_jacobian (f : callable float) (argnum : nat) : callable float :=
  fun args =>
    match args, argnum with
    | [ArgNum _; ArgNum _], 0 => Ok (Arr [1; 0; -1]%float)
    | [ArgNum _; ArgNum _], _ => Ok (Arr [0; 1; -1]%float)
    | _, _ => Raise (TypeError "tri_pmf() takes 2 positional arguments")
    end.

Definition tri_opt : OptimizeResult float :=
  {| x := [0x1p-2; 0x1p-1]%float; success := true;
     message := "Optimization terminated successfully.";
     nit := 40; final_fun := 0x1p+3%float |}.

Definition tri_providers : Providers float := {|
  kwargs := unit;
  jacobian := tri_jacobian;
  minimize := fun _ _ _ _ => Ok tri_opt;
  np_linalg_inv := fun _ => None;
  uninit := fun i j => 0x1p+10%float
|}.

Definition tri_fitted (counts : list float) : core.MultinomialLikelihood float :=
  {| core.mn_data := counts; core.mn_pmf := tri_pmf;
     core.mn_opt_result := Some tri_opt |}.

End binary64.

(** *** Symbolic scalars: every operation is recorded, none is computed *)

Module symbolic.

#[local] Unset Elimination Schemes.
Inductive sym : Type :=
  | SVar (name : string)
  | SInt (z : Z)
  | SAdd (a b : sym)
  | SSub (a b : sym)
  | SMul (a b : sym)
  | SDiv (a b : sym)
  | SNeg (a : sym)
  | SAbs (a : sym)
  | SSqrt (a : sym)
  | SLog (a : sym)
  | SSum (terms : list sym).
#[local] Set Elimination Schemes.

#[export] Instance sym_Float64 : Float64 sym := {
  fzero := SInt 0;
  fadd := SAdd;
  fsub := SSub;
  fmul := SMul;
  fdiv := SDiv;
  fneg := SNeg;
  fabs := SAbs;
  fsqrt := SSqrt;
  (* a term stands for a number *)
  fisnan := fun _ => false;
  fsum := SSum
}.

#[export] Instance sym_Libm : Libm sym := { flog := SLog }.

(** Syntactic equality of terms. *)
Fixpoint sym_eqb (s t : sym) : bool :=
  match s, t with
  | SVar a, SVar b => String.eqb a b
  | SInt a, SInt b => Z.eqb a b
  | SAdd a b, SAdd c d | SSub a b, SSub c d
  | SMul a b, SMul c d | SDiv a b, SDiv c d => sym_eqb a c && sym_eqb b d
  | SNeg a, SNeg c | SAbs a, SAbs c
  | SSqrt a, SSqrt c | SLog a, SLog c => sym_eqb a c
  | SSum l, SSum k =>
      (fix all_eqb (l k : list sym) : bool :=
         match l, k with
         | [], [] => true
         | a :: l', c :: k' => sym_eqb a c && all_eqb l' k'
         | _, _ => false
         end) l k
  | _, _ => false
  end.

(** The inverse of a 1x1 or 2x2 matrix in closed form.  A 2x2 matrix is
    reported singular when the two products of its determinant are the
    same term; [None] also on the other shapes. *)
Definition inv_2x2 (m : matrix sym) : option (matrix sym) :=
  match m with
  | [[a]] => Some [[SDiv (SInt 1) a]]
  | [[a; b]; [c; d]] =>
      if sym_eqb (SMul a d) (SMul b c) then None
      else
        let det := SSub (SMul a d) (SMul b c) in
        Some [[SDiv d det; SDiv (SNeg b) det];
              [SDiv (SNeg c) det; SDiv a det]]
  | _ => None
  end.

(** The docstring's model: [ber_pmf(p) = [p, 1 - p]] on counts [20, 30],
    with its derivative. *)
Definition ber_pmf : callable sym := fun args =>
  match args with
  | [ArgNum p] => Ok (Arr [p; SSub (SInt 1) p])
  | _ => Raise (TypeError "ber_pmf() takes 1 positional argument")
  end.

Definition ber_jacobian (f : callable sym) (argnum : nat) : callable sym :=
  fun args =>
    match args, argnum with
    | [ArgNum _], 0 => Ok (Arr [SInt 1; SInt (-1)])
    | _, _ => Raise (TypeError "ber_pmf() takes 1 positional argument")
    end.

Definition ber_counts : list sym := [SInt 20; SInt 30].

(** A run of the optimizer that stopped without converging. *)
Definition stalled : OptimizeResult sym :=
  {| x := [SVar "p"]; success := false;
     message := "Maximum number of iterations has been exceeded.";
     nit := 200; final_fun := SVar "f" |}.

Definition ber_providers : Providers sym := {|
  kwargs := unit;
  jacobian := ber_jacobian;
  minimize := fun _ _ _ _ => Ok stalled;
  np_linalg_inv := inv_2x2;
  uninit := fun i j => SVar "uninitialized"
|}.

(** A mean with one parameter: [ramp_mean(t) = [t, 2 * t]]. *)
Definition ramp_mean : callable sym := fun args =>
  match args with
  | [ArgNum t] => Ok (Arr [t; SMul (SInt 2) t])
  | _ => Raise (TypeError "ramp_mean() takes 1 positional argument")
  end.

(** A model with two parameters over three categories:
    [tri_pmf(a, b) = [a, b, 1 - a - b]], with its two partial
    derivatives. *)
Definition tri_pmf : callable sym := fun args =>
  match args with
  | [ArgNum a; ArgNum b] => Ok (Arr [a; b; SSub (SSub (SInt 1) a) b])
  | _ => Raise (TypeError "tri_pmf() takes 2 positional arguments")
  end.

Definition tri_gradient (argnum : nat) : list sym :=
  match argnum with
  | 0 => [SInt 1; SInt 0; SInt (-1)]
  | _ => [SInt 0; SInt 1; SInt (-1)]
  end.

Definition tri_jacobian (f : callable sym) (argnum : nat) : callable sym :=
  fun args =>
    match args with
    | [ArgNum _; ArgNum _] => Ok (Arr (tri_gradient argnum))
    | _ => Raise (TypeError "tri_pmf() takes 2 positional arguments")
    end.

Definition tri_opt : OptimizeResult sym :=
  {| x := [SVar "a"; SVar "b"]; success := true;
     message := "Optimization terminated successfully.";
     nit := 40; final_fun := SVar "f" |}.

Definition tri_providers : Providers sym := {|
  kwargs := unit;
  jacobian := tri_jacobian;
  minimize := fun _ _ _ _ => Ok tri_opt;
  np_linalg_inv := inv_2x2;
  uninit := fun i j => SVar "uninitialized"
|}.

Definition tri_counts : list sym := [SVar "n1"; SVar "n2"; SVar "n3"].

Definition tri_fitted : core.MultinomialLikelihood sym :=
  {| core.mn_data := tri_counts; core.mn_pmf := tri_pmf;
     core.mn_opt_result := Some tri_opt |}.

(** Its Fisher matrix and the inverse of that matrix, evaluated. *)
Definition tri_fisher : matrix sym :=
  Eval vm_compute in
    match core.MultinomialLikelihood_fisher_information_matrix
            (PR := tri_providers) tri_fitted with
    | Ok M => M
    | Raise _ => []
    end.

Definition tri_inverse : matrix sym :=
  Eval vm_compute in
    match inv_2x2 tri_fisher with
    | Some M => M
    | None => []
    end.

(** A model whose two parameters cannot be told apart:
    [dup_pmf(a, b) = [a + b, 1 - (a + b)]]. *)
Definition dup_pmf : callable sym := fun args =>
  match args with
  | [ArgNum a; ArgNum b] => Ok (Arr [SAdd a b; SSub (SInt 1) (SAdd a b)])
  | _ => Raise (TypeError "dup_pmf() takes 2 positional arguments")
  end.

Definition dup_jacobian (f : callable sym) (argnum : nat) : callable sym :=
  fun args =>
    match args with
    | [ArgNum _; ArgNum _] => Ok (Arr [SInt 1; SInt (-1)])
    | _ => Raise (TypeError "dup_pmf() takes 2 positional arguments")
    end.

Definition dup_providers : Providers sym := {|
  kwargs := unit;
  jacobian := dup_jacobian;
  minimize := fun _ _ _ _ => Ok tri_opt;
  np_linalg_inv := inv_2x2;
  uninit := fun i j => SVar "uninitialized"
|}.

Definition dup_fitted : core.MultinomialLikelihood sym :=
  {| core.mn_data := [SVar "n1"; SVar "n2"]; core.mn_pmf := dup_pmf;
     core.mn_opt_result := Some tri_opt |}.

Definition dup_fisher : matrix sym :=
  Eval vm_compute in
    match core.MultinomialLikelihood_fisher_information_matrix
            (PR := dup_providers) dup_fitted with
    | Ok M => M
    | Raise _ => []
    end.

Definition ber_unfit : core.MultinomialLikelihood sym :=
  core.MultinomialLikelihood_init ber_counts ber_pmf.

Definition ramp_unfit : core.PoissonLikelihood sym :=
  core.PoissonLikelihood_init [SInt 3; SInt 5] ramp_mean.

(** A differentiation that fails for the second argument. *)
Definition half_jacobian (f : callable sym) (argnum : nat) : callable sym :=
  fun args =>
    match argnum with
    | 0 => Ok (Arr (tri_gradient 0))
    | _ => Raise (TypeError "cannot differentiate with respect to argument 1")
    end.

Definition half_providers : Providers sym := {|
  kwargs := unit;
  jacobian := half_jacobian;
  minimize := fun _ _ _ _ => Ok tri_opt;
  np_linalg_inv := inv_2x2;
  uninit := fun i j => SVar "uninitialized"
|}.

(** A mean that is one rate for every observation: [flat_mean(t) = t]. *)
Definition flat_mean : callable sym := fun args =>
  match args with
  | [ArgNum t] => Ok (Num t)
  | _ => Raise (TypeError "flat_mean() takes 1 positional argument")
  end.

Definition flat_unfit : core.PoissonLikelihood sym :=
  core.PoissonLikelihood_init [SInt 3; SInt 5] flat_mean.

End symbolic.

(** ** The vocabulary of the statements *)

Section Vocabulary.
Context {F : Type} {F64 : Float64 F} {PR : Providers F}.
Implicit Types (M : matrix F) (v : F).
Implicit Types (f : callable F) (grad : list (callable F)).

(** An [n] by [n] array. *)
Definition square (n : nat) M : Prop :=
  length M = n /\ Forall (fun row => length row = n) M.

(** The two assignments of the inner loop's body. *)
Definition set_pair (i j : nat) v M : matrix F :=
  set_item j i v (set_item i j v M).

(** The sum over the categories of [(gi * gj) / p]. *)
Definition fisher_sum (gi gj p : list F) : F :=
  fsum (zip_with fdiv (zip_with fmul gi gj) p).

(** The gradient list built before the loops. *)
Definition grad_list f (opt : OptimizeResult F) : list (callable F) :=
  map (jacobian f) (seq 0 (length (x opt))).

(** The value the loops assign at [i, j], when computing it returns. *)
Definition term_of grad f (opt_params : list F) (i j : nat) : F :=
  match core.pairwise_term grad f opt_params i j with
  | Ok v => v
  | Raise _ => fzero
  end.

(** After the rows before [i] and, in row [i], the columns before [c]:
    every entry with a finished index pair holds the term of the ordered
    pair. *)
Definition filled (n : nat) (E : nat -> nat -> F) (i c : nat) M : Prop :=
  square n M /\
  forall a b, a < n -> b < n ->
    a `min` b < i \/ (a `min` b = i /\ a `max` b < c) ->
    get_item M a b = Some (E (a `min` b) (a `max` b)).

(** The absolute residuals [|data - m|], element by element. *)
Definition abs_residuals (d m : list F) : list F :=
  zip_with (fun a b => fabs (fsub a b)) d m.

(** The formula of the specification: the sum of the absolute residuals,
    and with a regularization the last parameter times the regularization
    term added to that sum. *)
Definition L1Norm_evaluate_as_specified (self : loss.L1Norm F)
    (params : list F) : result F :=
  match loss.regularization self with
  | None =>
      let! m := loss.model self (unpack params) in
      let! r := broadcast2 fsub (Arr (loss.data self)) m in
      Ok (nd_sum (nd_map fabs r))
  | Some g =>
      let! m := loss.model self [ArgSeq (removelast params)] in
      let! r := broadcast2 fsub (Arr (loss.data self)) m in
      let! w := loss.last_item params in
      let! t := g [ArgSeq (removelast params)] in
      Ok (fadd (nd_sum (nd_map fabs r)) (fmul w (nd_sum t)))
  end.

End Vocabulary.

(** ** The vocabulary of the further properties *)

Section MoreVocabulary.
Context {F : Type} {F64 : Float64 F}.

(** Two runs end alike: both return, with related values, or both raise
    the same exception. *)
Definition ends_alike {A B} (R : A -> B -> Prop) (r1 : result A)
    (r2 : result B) : Prop :=
  match r1, r2 with
  | Ok a, Ok b => R a b
  | Raise e1, Raise e2 => e1 = e2
  | _, _ => False
  end.

(** Two [n] by [n] arrays hold the same values at every index pair
    finished before row [i], column [c]. *)
Definition agree (n i c : nat) (M1 M2 : matrix F) : Prop :=
  square n M1 /\ square n M2 /\
  forall a b, a < n -> b < n ->
    a `min` b < i \/ (a `min` b = i /\ a `max` b < c) ->
    get_item M1 a b = get_item M2 a b.

(** Every pairwise term the loops compute before row [i], column [c] can
    be computed. *)
Definition computed (n : nat) (grad : list (callable F)) (f : callable F)
    (opt_params : list F) (i c : nat) : Prop :=
  forall a b, a <= b < n -> a < i \/ (a = i /\ b < c) ->
    is_ok (core.pairwise_term grad f opt_params a b) = true.

End MoreVocabulary.

(** * Properties *)

(** ** Loops and matrices *)

Section Loops.
Context {St : Type}.
Implicit Types (body : nat -> St -> result St) (l : list nat).

(** Partial correctness of a [for] loop: an invariant indexed by the number
    of completed iterations. *)
Lemma for_each_partial body (Inv : nat -> St -> Prop) l s s' :
  Inv 0 s ->
  (forall k i t t', l !! k = Some i -> Inv k t -> body i t = Ok t' ->
                    Inv (S k) t') ->
  for_each body l s = Ok s' ->
  Inv (length l) s'.
Proof.
  revert Inv s. induction l as [|i l IH]; intros Inv s H0 Hstep Hrun.
  - simpl in Hrun. injection Hrun as <-. exact H0.
  - simpl in Hrun. destruct (body i s) as [t|e] eqn:Hb; simpl in Hrun;
      [|discriminate].
    apply (IH (fun k => Inv (S k)) t).
    + apply (Hstep 0 i s t); [reflexivity|exact H0|exact Hb].
    + intros k j u u' Hk Hu Hbu. apply (Hstep (S k) j u u'); assumption.
    + exact Hrun.
Qed.

(** Total correctness: when every iteration that starts from the invariant
    returns, so does the loop. *)
Lemma for_each_total body (Inv : nat -> St -> Prop) l s :
  Inv 0 s ->
  (forall k i t, l !! k = Some i -> Inv k t ->
                 exists t', body i t = Ok t' /\ Inv (S k) t') ->
  exists s', for_each body l s = Ok s' /\ Inv (length l) s'.
Proof.
  revert Inv s. induction l as [|i l IH]; intros Inv s H0 Hstep.
  - exists s. split; [reflexivity|exact H0].
  - destruct (Hstep 0 i s eq_refl H0) as (t & Hb & Ht).
    destruct (IH (fun k => Inv (S k)) t Ht) as (s' & Hrun & Hs').
    + intros k j u Hk Hu. apply (Hstep (S k) j u); assumption.
    + exists s'. split; [|exact Hs']. simpl. rewrite Hb. exact Hrun.
Qed.

End Loops.

Section Matrices.
Context {F : Type} {F64 : Float64 F}.
Implicit Types (M : matrix F) (v : F).

Lemma square_lookup n M i :
  square n M -> i < n -> exists row, M !! i = Some row /\ length row = n.
Proof.
  intros [Hlen Hrows] Hi.
  destruct (lookup_lt_is_Some_2 M i) as [row Hrow]; [lia|].
  exists row. split; [exact Hrow|].
  exact (Forall_lookup_1 _ _ _ _ Hrows Hrow).
Qed.

Lemma square_get_item n M i j :
  square n M -> i < n -> j < n -> is_Some (get_item M i j).
Proof.
  intros HM Hi Hj. destruct (square_lookup n M i HM Hi) as (row & Hrow & Hlen).
  unfold get_item. rewrite Hrow. simpl. apply lookup_lt_is_Some_2. lia.
Qed.

Lemma set_item_square n M i j v : square n M -> square n (set_item i j v M).
Proof.
  intros [Hlen Hrows]. unfold set_item.
  destruct (M !! i) as [row|] eqn:Hrow; [|split; assumption].
  split.
  - rewrite length_insert. exact Hlen.
  - apply Forall_insert; [exact Hrows|]. cbv beta.
    rewrite length_insert. exact (Forall_lookup_1 _ _ _ _ Hrows Hrow).
Qed.

Lemma get_set_item n M i j v a b :
  square n M -> i < n -> j < n ->
  get_item (set_item i j v M) a b =
    if decide (a = i /\ b = j) then Some v else get_item M a b.
Proof.
  intros HM Hi Hj. destruct (square_lookup n M i HM Hi) as (row & Hrow & Hlen).
  unfold get_item, set_item. rewrite Hrow.
  destruct (decide (a = i)) as [->|Hai].
  - rewrite list_lookup_insert_eq by (apply lookup_lt_Some in Hrow; exact Hrow).
    simpl. rewrite Hrow. simpl.
    destruct (decide (b = j)) as [->|Hbj].
    + rewrite list_lookup_insert_eq by lia.
      rewrite decide_True by auto. reflexivity.
    + rewrite list_lookup_insert_ne by auto.
      rewrite decide_False by (intros [_ ?]; auto). reflexivity.
  - rewrite list_lookup_insert_ne by auto.
    rewrite decide_False by (intros [? _]; auto). reflexivity.
Qed.

Lemma set_pair_square n M i j v : square n M -> square n (set_pair i j v M).
Proof. intros HM. unfold set_pair. do 2 apply set_item_square. exact HM. Qed.

Lemma get_set_pair n M i j v a b :
  square n M -> i < n -> j < n ->
  get_item (set_pair i j v M) a b =
    if decide ((a = i /\ b = j) \/ (a = j /\ b = i)) then Some v
    else get_item M a b.
Proof.
  intros HM Hi Hj. unfold set_pair.
  rewrite (get_set_item n) by (try apply set_item_square; assumption).
  rewrite (get_set_item n) by assumption.
  repeat case_decide; try reflexivity; exfalso; tauto.
Qed.

Lemma get_item_scale c M a b :
  get_item (scale c M) a b = fmul c <$> get_item M a b.
Proof.
  unfold get_item, scale. rewrite list_lookup_fmap.
  destruct (M !! a) as [row|]; simpl; [|reflexivity].
  apply list_lookup_fmap.
Qed.

Lemma scale_square n c M : square n M -> square n (scale c M).
Proof.
  intros [Hlen Hrows]. split.
  - unfold scale. rewrite length_map. exact Hlen.
  - unfold scale. apply Forall_fmap. eapply Forall_impl; [exact Hrows|].
    intros row Hrow. simpl. rewrite length_map. exact Hrow.
Qed.

Lemma np_empty_square {PR : Providers F} n : square n (np_empty n n).
Proof.
  split.
  - unfold np_empty. rewrite length_map, length_seq. reflexivity.
  - unfold np_empty. apply Forall_fmap, Forall_forall. intros i _. simpl.
    rewrite length_map, length_seq. reflexivity.
Qed.

Lemma diag_from_lookup n k (rows : matrix F) t :
  Forall (fun row => length row = n) rows -> k + length rows <= n ->
  length (diag_from k rows) = length rows /\
  diag_from k rows !! t = (rows !! t) ≫= (fun row => row !! (k + t)).
Proof.
  revert k t. induction rows as [|row rows IH]; intros k t Hrows Hk.
  - split; reflexivity.
  - apply Forall_cons in Hrows as [Hrow Hrows]. simpl in Hk. simpl.
    destruct (lookup_lt_is_Some_2 row k) as [v Hv]; [lia|]. rewrite Hv.
    destruct (IH (S k) (pred t) Hrows) as [Hlen Hget]; [lia|].
    split; [simpl; f_equal; exact Hlen|].
    destruct t as [|t]; simpl.
    + rewrite Nat.add_0_r. symmetry. exact Hv.
    + simpl in Hget. rewrite Hget. replace (k + S t) with (S (k + t)) by lia.
      reflexivity.
Qed.

(** The diagonal of an [n] by [n] array has [n] entries, the [k]-th being
    the entry at [k, k]. *)
Lemma np_diag_square n (M : matrix F) :
  square n M ->
  length (np_diag M) = n /\ forall k, np_diag M !! k = get_item M k k.
Proof.
  intros [Hlen Hrows]. unfold np_diag, get_item.
  split.
  - destruct (diag_from_lookup n 0 M 0 Hrows) as [Hl _]; [lia|]. lia.
  - intros k. destruct (diag_from_lookup n 0 M k Hrows) as [_ Hg]; [lia|].
    exact Hg.
Qed.

End Matrices.

(** ** The pairwise loops *)

Section FisherLoops.
Context {F : Type} {F64 : Float64 F} {PR : Providers F}.
Implicit Types (M : matrix F) (f : callable F) (grad : list (callable F)).

Lemma filled_row_start n E i M : filled n E i 0 M -> filled n E i i M.
Proof.
  intros [HM Hget]. split; [exact HM|].
  intros a b Ha Hb Hd. apply Hget; [assumption..|]. lia.
Qed.

Lemma filled_row_end n E i M : filled n E i n M -> filled n E (S i) 0 M.
Proof.
  intros [HM Hget]. split; [exact HM|].
  intros a b Ha Hb Hd. apply Hget; [assumption..|]. lia.
Qed.

Lemma filled_set_pair n E i j M :
  filled n E i j M -> i <= j < n ->
  filled n E i (S j) (set_pair i j (E i j) M).
Proof.
  intros [HM Hget] Hij. split; [apply set_pair_square; exact HM|].
  intros a b Ha Hb Hd.
  rewrite (get_set_pair n) by (assumption || lia).
  case_decide as Hab.
  - f_equal. destruct Hab as [[-> ->]|[-> ->]]; f_equal; lia.
  - apply Hget; [assumption..|].
    destruct Hd as [Hd|[Hmin Hmax]]; [left; exact Hd|].
    right. split; [exact Hmin|].
    destruct (decide (a `max` b = j)) as [Hj|Hj]; [|lia].
    exfalso. apply Hab. lia.
Qed.

Lemma pair_step_eq n grad f opt_params i j M :
  square n M -> i < n -> j < n ->
  core.pair_step grad f opt_params i j M =
    (let! v := core.pairwise_term grad f opt_params i j in
     Ok (set_pair i j v M)).
Proof.
  intros HM Hi Hj. unfold core.pair_step.
  destruct (core.pairwise_term grad f opt_params i j) as [v|e]; simpl;
    [|reflexivity].
  rewrite (get_set_item n) by assumption.
  rewrite decide_True by auto. reflexivity.
Qed.

Lemma pair_step_filled n grad f opt_params i j M M' :
  filled n (term_of grad f opt_params) i j M -> i <= j < n ->
  core.pair_step grad f opt_params i j M = Ok M' ->
  filled n (term_of grad f opt_params) i (S j) M'.
Proof.
  intros HM Hij Hstep.
  rewrite (pair_step_eq n) in Hstep by (apply HM || lia).
  pose proof (filled_set_pair n _ i j M HM Hij) as Hnext.
  unfold term_of at 2 in Hnext.
  destruct (core.pairwise_term grad f opt_params i j) as [v|e];
    simpl in Hstep; [|discriminate].
  injection Hstep as <-. exact Hnext.
Qed.

Lemma seq_lookup_plus (start len k i : nat) :
  seq start len !! k = Some i -> i = start + k /\ k < len.
Proof. intros Hk. apply lookup_seq in Hk. lia. Qed.

(** One row: the inner loop. *)
Lemma row_loop_filled n grad f opt_params i M M' :
  filled n (term_of grad f opt_params) i 0 M -> i < n ->
  for_each (core.pair_step grad f opt_params i) (seq i (n - i)) M = Ok M' ->
  filled n (term_of grad f opt_params) (S i) 0 M'.
Proof.
  intros HM Hi Hrun. apply filled_row_end.
  apply (for_each_partial _
           (fun k => filled n (term_of grad f opt_params) i (i + k))) in Hrun.
  - rewrite length_seq in Hrun. replace (i + (n - i)) with n in Hrun by lia.
    exact Hrun.
  - rewrite Nat.add_0_r. apply filled_row_start. exact HM.
  - intros k j t t' Hk Ht Hstep. apply seq_lookup_plus in Hk as [-> Hk].
    replace (i + S k) with (S (i + k)) by lia.
    apply (pair_step_filled n grad f opt_params i (i + k) t t' Ht); [lia|exact Hstep].
Qed.

Lemma row_loop_returns n grad f opt_params i M :
  filled n (term_of grad f opt_params) i 0 M -> i < n ->
  (forall j, i <= j < n ->
     is_ok (core.pairwise_term grad f opt_params i j) = true) ->
  exists M',
    for_each (core.pair_step grad f opt_params i) (seq i (n - i)) M = Ok M'.
Proof.
  intros HM Hi Hok.
  destruct (for_each_total (core.pair_step grad f opt_params i)
              (fun k => filled n (term_of grad f opt_params) i (i + k))
              (seq i (n - i)) M) as (M' & Hrun & _).
  - rewrite Nat.add_0_r. apply filled_row_start. exact HM.
  - intros k j t Hk Ht. apply seq_lookup_plus in Hk as [-> Hk].
    assert (Hstep : exists t',
      core.pair_step grad f opt_params i (i + k) t = Ok t').
    { rewrite (pair_step_eq n) by (apply Ht || lia).
      specialize (Hok (i + k) ltac:(lia)).
      destruct (core.pairwise_term grad f opt_params i (i + k)) as [v|e];
        [|discriminate].
      simpl. eauto. }
    destruct Hstep as [t' Hstep]. exists t'. split; [exact Hstep|].
    replace (i + S k) with (S (i + k)) by lia.
    apply (pair_step_filled n grad f opt_params i (i + k) t t' Ht); [lia|exact Hstep].
  - exists M'. exact Hrun.
Qed.

Lemma np_empty_filled n E : filled n E 0 0 (np_empty n n).
Proof. split; [apply np_empty_square|]. intros a b _ _ Hd. lia. Qed.

(** Both loops, when they return. *)
Lemma fisher_loops_filled f opt M :
  core.fisher_loops f opt = Ok M ->
  filled (length (x opt)) (term_of (grad_list f opt) f (x opt))
         (length (x opt)) 0 M.
Proof.
  intros Hrun. unfold core.fisher_loops in Hrun.
  apply (for_each_partial _
           (fun k => filled (length (x opt))
                       (term_of (grad_list f opt) f (x opt)) k 0)) in Hrun.
  - rewrite length_seq in Hrun. exact Hrun.
  - apply np_empty_filled.
  - intros k i t t' Hk Ht Hrow. apply seq_lookup_plus in Hk as [-> Hk].
    simpl in *. eapply row_loop_filled; [exact Ht|lia|exact Hrow].
Qed.

(** Both loops return when every pairwise term does. *)
Lemma fisher_loops_returns f opt :
  (forall i j, i <= j < length (x opt) ->
     is_ok (core.pairwise_term (grad_list f opt) f (x opt) i j) = true) ->
  exists M, core.fisher_loops f opt = Ok M.
Proof.
  intros Hok. unfold core.fisher_loops.
  destruct (for_each_total
    (fun i fisher =>
       for_each (core.pair_step (grad_list f opt) f (x opt) i)
                (seq i (length (x opt) - i)) fisher)
    (fun k => filled (length (x opt))
                (term_of (grad_list f opt) f (x opt)) k 0)
    (seq 0 (length (x opt))) (np_empty (length (x opt)) (length (x opt))))
    as (M & Hrun & _).
  - apply np_empty_filled.
  - intros k i t Hk Ht. apply seq_lookup_plus in Hk as [-> Hk]. simpl in *.
    destruct (row_loop_returns _ _ _ _ k t Ht Hk) as [t' Hrow].
    { intros j Hj. apply Hok. lia. }
    exists t'. split; [exact Hrow|].
    eapply row_loop_filled; [exact Ht|lia|exact Hrow].
  - exists M. exact Hrun.
Qed.

End FisherLoops.

(** ** core.py *)

Section CoreFacts.
Context {F : Type} {F64 : Float64 F} {LM : Libm F} {PR : Providers F}.
Implicit Types (f : callable F) (opt : OptimizeResult F).

Lemma grad_list_getitem f opt i :
  i < length (x opt) ->
  list_getitem (grad_list f opt) i = Ok (jacobian f i).
Proof.
  intros Hi. unfold list_getitem, grad_list.
  rewrite list_lookup_fmap, lookup_seq_lt by exact Hi. reflexivity.
Qed.

Lemma broadcast2_same_length (op : F -> F -> F) (xs ys : list F) :
  length xs = length ys ->
  broadcast2 op (Arr xs) (Arr ys) = Ok (Arr (zip_with op xs ys)).
Proof. intros Hlen. unfold broadcast2. rewrite decide_True by exact Hlen. reflexivity. Qed.

(** A pairwise term when the gradients have the shape of the model's
    output. *)
Lemma pairwise_term_value f opt (p : list F) (g : nat -> list F) i j :
  f (unpack (x opt)) = Ok (Arr p) ->
  (forall k, k < length (x opt) ->
     jacobian f k (unpack (x opt)) = Ok (Arr (g k)) /\
     length (g k) = length p) ->
  i < length (x opt) -> j < length (x opt) ->
  core.pairwise_term (grad_list f opt) f (x opt) i j
  = Ok (fisher_sum (g i) (g j) p).
Proof.
  intros Hp Hg Hi Hj. unfold core.pairwise_term.
  destruct (Hg i Hi) as [Hgi Hli]. destruct (Hg j Hj) as [Hgj Hlj].
  rewrite !grad_list_getitem by assumption. cbn [rbind].
  rewrite Hgi. cbn [rbind]. rewrite Hgj. cbn [rbind].
  rewrite broadcast2_same_length by congruence. cbn [rbind].
  rewrite Hp. cbn [rbind].
  rewrite broadcast2_same_length.
  - reflexivity.
  - rewrite length_zip_with. lia.
Qed.

#[local] Existing Instance core.MultinomialLikelihood_Likelihood.
#[local] Existing Instance core.PoissonLikelihood_Likelihood.

(** A bound call of a [def m(self)] runs the body on the instance. *)
Lemma bound_call_self {V A} (actual : V) (k : V -> result A) :
  (let! env := bind_positional ["self"] [actual] in
   let! self := lookup_name "self" env in k self) = k actual.
Proof. reflexivity. Qed.

(** A bound call of a [def m()] raises before the body runs. *)
Lemma bound_call_no_formal {V A} (actual : V) (k : V -> result A) :
  (let! env := bind_positional [] [actual] in
   let! self := lookup_name "self" env in k self)
  = Raise (TypeError "wrong number of positional arguments").
Proof. reflexivity. Qed.

Lemma multinomial_fisher_unfold (self : core.MultinomialLikelihood F) opt :
  core.mn_opt_result self = Some opt ->
  core.fisher_information_matrix self =
    (let! fisher := core.fisher_loops (core.mn_pmf self) opt in
     Ok (scale (core.n_counts self) fisher)).
Proof.
  intros Hopt. cbn [core.fisher_information_matrix
                    core.MultinomialLikelihood_Likelihood].
  unfold core.MultinomialLikelihood_fisher_information_matrix.
  rewrite bound_call_self, Hopt. reflexivity.
Qed.

(** C1.  On a fitted multinomial instance with [n] parameters whose
    gradients have the shape of [pmf]'s output, [fisher_information_matrix]
    returns an [n] by [n] matrix; for [i <= j] its entry [i, j] is
    [sum(data)] times the sum over the categories of
    [(grad_i * grad_j) / pmf], all taken at the fitted parameters, and the
    entry [j, i] is the same value. *)
Theorem multinomial_fisher_information_matrix_spec
    (self : core.MultinomialLikelihood F) opt (p : list F)
    (g : nat -> list F) :
  core.mn_opt_result self = Some opt ->
  core.mn_pmf self (unpack (x opt)) = Ok (Arr p) ->
  (forall i, i < length (x opt) ->
     jacobian (core.mn_pmf self) i (unpack (x opt)) = Ok (Arr (g i)) /\
     length (g i) = length p) ->
  exists M,
    core.fisher_information_matrix self = Ok M /\
    square (length (x opt)) M /\
    forall i j, i <= j < length (x opt) ->
      get_item M i j
      = Some (fmul (fsum (core.mn_data self)) (fisher_sum (g i) (g j) p)) /\
      get_item M j i = get_item M i j.
Proof.
  intros Hopt Hp Hg.
  assert (Hterm : forall i j, i < length (x opt) -> j < length (x opt) ->
    core.pairwise_term (grad_list (core.mn_pmf self) opt) (core.mn_pmf self)
      (x opt) i j = Ok (fisher_sum (g i) (g j) p)).
  { intros i j Hi Hj. apply pairwise_term_value; assumption. }
  destruct (fisher_loops_returns (core.mn_pmf self) opt) as [M0 Hrun].
  { intros i j Hij. rewrite Hterm by lia. reflexivity. }
  pose proof (fisher_loops_filled _ _ _ Hrun) as [Hsq Hget].
  exists (scale (core.n_counts self) M0).
  split; [|split].
  - rewrite (multinomial_fisher_unfold self opt Hopt), Hrun. reflexivity.
  - apply scale_square. exact Hsq.
  - intros i j Hij. rewrite !get_item_scale.
    rewrite (Hget i j), (Hget j i) by lia.
    replace (i `min` j) with i by lia. replace (i `max` j) with j by lia.
    replace (j `min` i) with i by lia. replace (j `max` i) with j by lia.
    unfold term_of. rewrite Hterm by lia. split; reflexivity.
Qed.

Lemma poisson_fisher_unfold (self : core.PoissonLikelihood F) :
  core.fisher_information_matrix self
  = Raise (TypeError "wrong number of positional arguments").
Proof.
  cbn [core.fisher_information_matrix core.PoissonLikelihood_Likelihood].
  unfold core.PoissonLikelihood_fisher_information_matrix.
  apply bound_call_no_formal.
Qed.

(** C2 (what the code does).  [PoissonLikelihood.fisher_information_matrix]
    is declared without [self]: called on any instance, fitted or not, it
    raises [TypeError] and computes no matrix, and so does
    [uncertainties]. *)
Theorem poisson_fisher_information_matrix_raises
    (self : core.PoissonLikelihood F) :
  core.fisher_information_matrix self
  = Raise (TypeError "wrong number of positional arguments") /\
  core.uncertainties self
  = Raise (TypeError "wrong number of positional arguments").
Proof.
  split; [apply poisson_fisher_unfold|].
  unfold core.uncertainties. rewrite poisson_fisher_unfold. reflexivity.
Qed.

(** C3.  When [pmf], called with one positional scalar per parameter,
    returns a vector [p] of the length of [data], [evaluate(params)] is
    [-sum(data * log(p))]; the call's argument list holds the parameters one
    by one and is not the one-vector argument list, and [evaluate] depends
    on [pmf] through that call only. *)
Theorem multinomial_evaluate_spec
    (self : core.MultinomialLikelihood F) (params p : list F) :
  core.mn_pmf self (unpack params) = Ok (Arr p) ->
  length p = length (core.mn_data self) ->
  core.evaluate self params
  = Ok (fneg (fsum (zip_with (fun d q => fmul d (flog q))
                             (core.mn_data self) p))) /\
  Forall2 (fun a v => a = ArgNum v) (unpack params) params /\
  unpack params <> [ArgSeq params] /\
  forall pmf', pmf' (unpack params) = core.mn_pmf self (unpack params) ->
    core.evaluate
      {| core.mn_data := core.mn_data self; core.mn_pmf := pmf';
         core.mn_opt_result := core.mn_opt_result self |} params
    = core.evaluate self params.
Proof.
  intros Hp Hlen. repeat split.
  - cbn [core.evaluate core.MultinomialLikelihood_Likelihood].
    unfold core.MultinomialLikelihood_evaluate. rewrite Hp. cbn [rbind nd_map].
    rewrite broadcast2_same_length by (rewrite length_map; lia).
    cbn [rbind nd_sum]. rewrite zip_with_fmap_r. reflexivity.
  - unfold unpack. apply Forall2_fmap_l, Forall2_same_length_lookup_2; [reflexivity|].
    intros i a b Ha Hb. congruence.
  - destruct params; discriminate.
  - intros pmf' Hpmf'.
    cbn [core.evaluate core.MultinomialLikelihood_Likelihood].
    unfold core.MultinomialLikelihood_evaluate. cbn [core.mn_pmf core.mn_data].
    rewrite Hpmf'. reflexivity.
Qed.

(** C4.  When [mean], called with one positional scalar per parameter,
    returns a vector [mu] of the length of [data], [evaluate(params)] is
    [sum(mu - data * log(mu))]. *)
Theorem poisson_evaluate_spec
    (self : core.PoissonLikelihood F) (params mu : list F) :
  core.po_mean self (unpack params) = Ok (Arr mu) ->
  length mu = length (core.po_data self) ->
  core.evaluate self params
  = Ok (fsum (zip_with fsub mu
                (zip_with (fun d m => fmul d (flog m))
                          (core.po_data self) mu))).
Proof.
  intros Hmu Hlen.
  cbn [core.evaluate core.PoissonLikelihood_Likelihood].
  unfold core.PoissonLikelihood_evaluate. rewrite Hmu. cbn [rbind nd_map].
  rewrite broadcast2_same_length by (rewrite length_map; lia).
  cbn [rbind]. rewrite zip_with_fmap_r.
  rewrite broadcast2_same_length by (rewrite length_zip_with; lia).
  reflexivity.
Qed.

(** C5, as the code has it.  On a freshly constructed multinomial instance
    both [fisher_information_matrix] and [uncertainties] raise Python's
    [AttributeError]: the instance has no attribute [opt_result]. *)
Theorem multinomial_unfit_raises_AttributeError
    (data : list F) (pmf : callable F) :
  core.fisher_information_matrix (core.MultinomialLikelihood_init data pmf)
  = Raise (AttributeError "MultinomialLikelihood" "opt_result") /\
  core.uncertainties (core.MultinomialLikelihood_init data pmf)
  = Raise (AttributeError "MultinomialLikelihood" "opt_result").
Proof. split; reflexivity. Qed.

(** C6.  For a fitted instance of either class and parameter indices
    [i], [j], the matrix [fisher_information_matrix] returns has an entry at
    [i, j] and at [j, i], and the two are the same value. *)
Theorem fisher_information_matrix_symmetric :
  (forall (self : core.MultinomialLikelihood F) opt M i j,
     core.mn_opt_result self = Some opt ->
     core.fisher_information_matrix self = Ok M ->
     i < length (x opt) -> j < length (x opt) ->
     is_Some (get_item M i j) /\ get_item M i j = get_item M j i) /\
  (forall (self : core.PoissonLikelihood F) opt M i j,
     core.po_opt_result self = Some opt ->
     core.fisher_information_matrix self = Ok M ->
     i < length (x opt) -> j < length (x opt) ->
     is_Some (get_item M i j) /\ get_item M i j = get_item M j i).
Proof.
  split.
  - intros self opt M i j Hopt Hrun Hi Hj.
    rewrite (multinomial_fisher_unfold self opt Hopt) in Hrun.
    destruct (core.fisher_loops (core.mn_pmf self) opt) as [M0|e] eqn:Hloops;
      cbn [rbind] in Hrun; [|discriminate].
    injection Hrun as <-.
    apply fisher_loops_filled in Hloops as [Hsq Hget].
    rewrite !get_item_scale, (Hget i j), (Hget j i) by lia.
    rewrite (Nat.min_comm j i), (Nat.max_comm j i).
    split; [eexists|]; reflexivity.
  - intros self opt M i j _ Hrun. exfalso.
    rewrite poisson_fisher_unfold in Hrun. discriminate.
Qed.

(** The Fisher matrix of a fitted multinomial instance whose gradients
    have the shape of [pmf]'s output, entry by entry. *)
Lemma fitted_multinomial_fisher
    (self : core.MultinomialLikelihood F) opt (p : list F)
    (g : nat -> list F) :
  core.mn_opt_result self = Some opt ->
  core.mn_pmf self (unpack (x opt)) = Ok (Arr p) ->
  (forall i, i < length (x opt) ->
     jacobian (core.mn_pmf self) i (unpack (x opt)) = Ok (Arr (g i)) /\
     length (g i) = length p) ->
  exists M,
    core.fisher_information_matrix self = Ok M /\
    square (length (x opt)) M /\
    forall i j, i < length (x opt) -> j < length (x opt) ->
      get_item M i j
      = Some (fmul (fsum (core.mn_data self))
                (fisher_sum (g (i `min` j)) (g (i `max` j)) p)).
Proof.
  intros Hopt Hp Hg.
  assert (Hterm : forall i j, i < length (x opt) -> j < length (x opt) ->
    core.pairwise_term (grad_list (core.mn_pmf self) opt) (core.mn_pmf self)
      (x opt) i j = Ok (fisher_sum (g i) (g j) p)).
  { intros i j Hi Hj. apply pairwise_term_value; assumption. }
  destruct (fisher_loops_returns (core.mn_pmf self) opt) as [M0 Hrun].
  { intros i j Hij. rewrite Hterm by lia. reflexivity. }
  pose proof (fisher_loops_filled _ _ _ Hrun) as [Hsq Hget].
  exists (scale (core.n_counts self) M0). split; [|split].
  - rewrite (multinomial_fisher_unfold self opt Hopt), Hrun. reflexivity.
  - apply scale_square. exact Hsq.
  - intros i j Hi Hj. rewrite get_item_scale, (Hget i j) by lia.
    unfold term_of. rewrite Hterm by lia. reflexivity.
Qed.

(** C7, as the code has it.  [uncertainties] is one definition for every
    class that implements [Likelihood]: it hands the matrix
    [fisher_information_matrix] returns to [numpy.linalg.inv]; the
    exception [numpy.linalg.inv] raises is numpy's [LinAlgError] and
    propagates; otherwise the result is the square roots of the diagonal
    of the array [numpy.linalg.inv] returned.  On a fitted multinomial
    instance with [n] parameters the matrix handed over is [n] by [n], and
    an inverse of that shape gives [n] uncertainties, the [k]-th being the
    square root of the entry [k, k]. *)
Theorem uncertainties_runs_numpy_inv :
  (forall T (L : core.Likelihood (F:=F) T) (self : T),
     core.uncertainties self
     = (let! fisher := core.fisher_information_matrix self in
        match np_linalg_inv fisher with
        | None => Raise (LinAlgError "Singular matrix")
        | Some inv_fisher => Ok (map fsqrt (np_diag inv_fisher))
        end)) /\
  exc_class (LinAlgError "Singular matrix") = "LinAlgError" /\
  (forall (self : core.MultinomialLikelihood F) opt (p : list F)
          (g : nat -> list F),
     core.mn_opt_result self = Some opt ->
     core.mn_pmf self (unpack (x opt)) = Ok (Arr p) ->
     (forall i, i < length (x opt) ->
        jacobian (core.mn_pmf self) i (unpack (x opt)) = Ok (Arr (g i)) /\
        length (g i) = length p) ->
     exists M,
       core.fisher_information_matrix self = Ok M /\
       square (length (x opt)) M /\
       (forall i j, i < length (x opt) -> j < length (x opt) ->
          get_item M i j
          = Some (fmul (fsum (core.mn_data self))
                    (fisher_sum (g (i `min` j)) (g (i `max` j)) p))) /\
       (np_linalg_inv M = None ->
        core.uncertainties self = Raise (LinAlgError "Singular matrix")) /\
       (forall inv_fisher,
          np_linalg_inv M = Some inv_fisher ->
          square (length (x opt)) inv_fisher ->
          exists unc,
            core.uncertainties self = Ok unc /\
            length unc = length (x opt) /\
            forall k, k < length (x opt) ->
              unc !! k = fsqrt <$> get_item inv_fisher k k)).
Proof.
  split; [reflexivity|]. split; [reflexivity|].
  intros self opt p g Hopt Hp Hg.
  destruct (fitted_multinomial_fisher self opt p g Hopt Hp Hg)
    as (M & Hfisher & Hsq & Hentries).
  exists M. split; [exact Hfisher|]. split; [exact Hsq|].
  split; [exact Hentries|]. split.
  - intros Hinv. unfold core.uncertainties.
    rewrite Hfisher. cbn [rbind]. rewrite Hinv. reflexivity.
  - intros inv_fisher Hinv Hshape.
    exists (map fsqrt (np_diag inv_fisher)). split; [|split].
    + unfold core.uncertainties.
      rewrite Hfisher. cbn [rbind]. rewrite Hinv. reflexivity.
    + rewrite length_map. exact (proj1 (np_diag_square _ _ Hshape)).
    + intros k _. rewrite list_lookup_fmap.
      rewrite (proj2 (np_diag_square _ _ Hshape) k). reflexivity.
Qed.

#[local] Existing Instance loss.L1Norm_LossFunction.


End CoreFacts.

(** ** loss.py *)

Section LossFacts.
Context {F : Type} {F64 : Float64 F} {PR : Providers F}.
Implicit Types (self : loss.L1Norm F) (params rest d mv ts : list F).
Implicit Types (m g : callable F) (reg func : option (callable F)).

#[local] Existing Instance loss.L1Norm_LossFunction.

Lemma map_zip_with {A B C D} (g : C -> D) (f : A -> B -> C) (l : list A)
    (k : list B) :
  map g (zip_with f l k) = zip_with (fun a b => g (f a b)) l k.
Proof.
  revert k. induction l as [|a l IH]; intros [|b k]; simpl; try reflexivity.
  f_equal. apply IH.
Qed.

Lemma last_item_snoc (rest : list F) (w : F) :
  loss.last_item (rest ++ [w]) = Ok w /\ removelast (rest ++ [w]) = rest.
Proof.
  split.
  - unfold loss.last_item. rewrite last_snoc. reflexivity.
  - apply removelast_last.
Qed.

(** C9, as the code has it.  Without a regularization, [evaluate] is the
    NaN-ignoring sum of the absolute residuals against [model( *params)].
    With one, the model and the regularization are called on the parameters
    before the last, passed as one sequence, and the last parameter times
    the regularization term is added to every absolute residual before the
    NaN-ignoring sum: a scalar term is counted once per data element. *)
Theorem l1norm_evaluate_spec :
  (forall d m reg,
     loss._evaluate (loss.L1Norm_init d m reg)
     = match reg with
       | None => loss.evaluate_wo_regularization
       | Some _ => loss.evaluate_w_regularization
       end /\
     loss.regularization (loss.L1Norm_init d m reg) = reg) /\
  (forall self params mv,
     loss._evaluate self = loss.evaluate_wo_regularization ->
     loss.model self (unpack params) = Ok (Arr mv) ->
     length mv = length (loss.data self) ->
     loss.evaluate self params
     = Ok (fsum (map nan_to_zero (abs_residuals (loss.data self) mv)))) /\
  (forall self g rest w mv s,
     loss._evaluate self = loss.evaluate_w_regularization ->
     loss.regularization self = Some g ->
     loss.model self [ArgSeq rest] = Ok (Arr mv) ->
     length mv = length (loss.data self) ->
     g [ArgSeq rest] = Ok (Num s) ->
     loss.evaluate self (rest ++ [w])
     = Ok (fsum (map nan_to_zero
                  (map (fun a => fadd a (fmul w s))
                       (abs_residuals (loss.data self) mv))))) /\
  (forall self g rest w mv ts,
     loss._evaluate self = loss.evaluate_w_regularization ->
     loss.regularization self = Some g ->
     loss.model self [ArgSeq rest] = Ok (Arr mv) ->
     length mv = length (loss.data self) ->
     g [ArgSeq rest] = Ok (Arr ts) ->
     length ts = length (loss.data self) ->
     loss.evaluate self (rest ++ [w])
     = Ok (fsum (map nan_to_zero
                  (zip_with fadd (abs_residuals (loss.data self) mv)
                                 (map (fmul w) ts))))).
Proof.
  split; [|split; [|split]].
  - intros d m [g|]; split; reflexivity.
  - intros self params mv Hpath Hm Hlen.
    cbn [loss.evaluate loss.L1Norm_LossFunction]. unfold loss.L1Norm_evaluate.
    rewrite Hpath. unfold loss.L1Norm_evaluate_wo_regularization.
    rewrite Hm. cbn [rbind].
    rewrite broadcast2_same_length by lia. cbn [rbind nd_map].
    unfold np_nansum, abs_residuals. cbn [nd_map nd_sum].
    rewrite (map_zip_with fabs). reflexivity.
  - intros self g rest w mv s Hpath Hreg Hm Hlen Hg.
    cbn [loss.evaluate loss.L1Norm_LossFunction]. unfold loss.L1Norm_evaluate.
    rewrite Hpath. unfold loss.L1Norm_evaluate_w_regularization.
    destruct (last_item_snoc rest w) as [-> ->].
    rewrite Hm, Hreg. cbn [rbind].
    rewrite broadcast2_same_length by lia. cbn [rbind nd_map].
    rewrite Hg. cbn [rbind broadcast2 nd_map].
    unfold np_nansum, abs_residuals. cbn [nd_map nd_sum].
    rewrite (map_zip_with fabs). reflexivity.
  - intros self g rest w mv ts Hpath Hreg Hm Hlen Hg Hts.
    cbn [loss.evaluate loss.L1Norm_LossFunction]. unfold loss.L1Norm_evaluate.
    rewrite Hpath. unfold loss.L1Norm_evaluate_w_regularization.
    destruct (last_item_snoc rest w) as [-> ->].
    rewrite Hm, Hreg. cbn [rbind].
    rewrite broadcast2_same_length by lia. cbn [rbind nd_map].
    rewrite Hg. cbn [rbind].
    change (broadcast2 fmul (Num w) (Arr ts)) with (Ok (Arr (map (fmul w) ts))).
    cbn [rbind].
    rewrite broadcast2_same_length
      by (rewrite !length_map, length_zip_with; lia).
    cbn [rbind]. unfold np_nansum, abs_residuals. cbn [nd_map nd_sum].
    rewrite (map_zip_with fabs). reflexivity.
Qed.

(** C10, as the code has it.  Assigning to [regularization] never changes
    which of the two methods [evaluate] runs.  After construction without a
    regularization no assignment changes [evaluate].  After construction
    with one, [evaluate] runs the regularized formula on the function
    assigned last, and raises [TypeError] once [None] is assigned (the
    residuals being computed first). *)
Theorem l1norm_evaluation_path_fixed_at_construction :
  (forall self func,
     loss._evaluate (loss.set_regularization func self) = loss._evaluate self) /\
  (forall d m func params,
     loss.evaluate (loss.set_regularization func (loss.L1Norm_init d m None))
                   params
     = loss.evaluate (loss.L1Norm_init d m None) params) /\
  (forall d m g g' params,
     loss.evaluate
       (loss.set_regularization (Some g') (loss.L1Norm_init d m (Some g)))
       params
     = loss.evaluate (loss.L1Norm_init d m (Some g')) params) /\
  (forall d m g params (r : nd F) (w : F),
     m [ArgSeq (removelast params)] = Ok r ->
     is_ok (broadcast2 fsub (Arr d) r) = true ->
     last params = Some w ->
     loss.evaluate
       (loss.set_regularization None (loss.L1Norm_init d m (Some g))) params
     = Raise (TypeError "'NoneType' object is not callable")).
Proof.
  split; [|split; [|split]].
  - intros self func. reflexivity.
  - intros d m func params. reflexivity.
  - intros d m g g' params. reflexivity.
  - intros d m g params r w Hm Hsub Hlast.
    cbn [loss.evaluate loss.L1Norm_LossFunction]. unfold loss.L1Norm_evaluate.
    cbn [loss._evaluate loss.set_regularization loss.L1Norm_init
         loss.regularization loss._regularization].
    unfold loss.L1Norm_evaluate_w_regularization.
    cbn [loss.model loss.data loss.set_regularization loss.L1Norm_init
         loss.regularization loss._regularization].
    rewrite Hm. cbn [rbind].
    destruct (broadcast2 fsub (Arr d) r) as [r'|e]; [|discriminate].
    cbn [rbind]. unfold loss.last_item. rewrite Hlast. reflexivity.
Qed.

End LossFacts.

(** ** The theorems at concrete inputs *)

Section TriExamples.
Import symbolic.
#[local] Existing Instance tri_providers.
#[local] Existing Instance core.MultinomialLikelihood_Likelihood.

(** C1 at the two-parameter model [tri_pmf]. *)
Lemma multinomial_fisher_information_matrix_witness :
  core.mn_opt_result tri_fitted = Some tri_opt /\
  exists M,
    core.fisher_information_matrix tri_fitted = Ok M /\
    square 2 M /\
    forall i j, i <= j < 2 ->
      get_item M i j
      = Some (SMul (SSum tri_counts)
                (fisher_sum (tri_gradient i) (tri_gradient j)
                   [SVar "a"; SVar "b";
                    SSub (SSub (SInt 1) (SVar "a")) (SVar "b")])) /\
      get_item M j i = get_item M i j.
Proof.
  split; [reflexivity|].
  refine (multinomial_fisher_information_matrix_spec tri_fitted tri_opt
            [SVar "a"; SVar "b"; SSub (SSub (SInt 1) (SVar "a")) (SVar "b")]
            tri_gradient eq_refl eq_refl _).
  intros i Hi. split; [reflexivity|]. destruct i as [|i]; reflexivity.
Defined.

(** C6 at the entries [0, 1] and [1, 0] of the same model. *)
Lemma fisher_information_matrix_symmetric_witness :
  core.fisher_information_matrix tri_fitted = Ok tri_fisher /\
  is_Some (get_item tri_fisher 0 1) /\
  get_item tri_fisher 0 1 = get_item tri_fisher 1 0.
Proof.
  split; [reflexivity|].
  apply (proj1 fisher_information_matrix_symmetric tri_fitted tri_opt
           tri_fisher 0 1).
  - reflexivity.
  - reflexivity.
  - simpl. lia.
  - simpl. lia.
Defined.

(** C7, as the code has it, at the same model: two parameters, a 2 by 2
    matrix, a 2 by 2 inverse, two uncertainties. *)
Lemma uncertainties_runs_numpy_inv_witness :
  np_linalg_inv tri_fisher = Some tri_inverse /\
  core.uncertainties tri_fitted
  = Ok [SSqrt (default (SInt 0) (get_item tri_inverse 0 0));
        SSqrt (default (SInt 0) (get_item tri_inverse 1 1))] /\
  exists M,
    core.fisher_information_matrix tri_fitted = Ok M /\
    square 2 M /\
    (forall i j, i < 2 -> j < 2 ->
       get_item M i j
       = Some (SMul (SSum tri_counts)
                 (fisher_sum (tri_gradient (i `min` j))
                    (tri_gradient (i `max` j))
                    [SVar "a"; SVar "b";
                     SSub (SSub (SInt 1) (SVar "a")) (SVar "b")]))) /\
    (np_linalg_inv M = None ->
     core.uncertainties tri_fitted = Raise (LinAlgError "Singular matrix")) /\
    (forall inv_fisher,
       np_linalg_inv M = Some inv_fisher ->
       square 2 inv_fisher ->
       exists unc,
         core.uncertainties tri_fitted = Ok unc /\
         length unc = 2 /\
         forall k, k < 2 -> unc !! k = SSqrt <$> get_item inv_fisher k k).
Proof.
  split; [reflexivity|]. split; [reflexivity|].
  refine (proj2 (proj2 uncertainties_runs_numpy_inv) tri_fitted tri_opt
            [SVar "a"; SVar "b"; SSub (SSub (SInt 1) (SVar "a")) (SVar "b")]
            tri_gradient eq_refl eq_refl _).
  intros i Hi. split; [reflexivity|]. destruct i as [|i]; reflexivity.
Defined.

(** C7: on the model [dup_pmf], whose Fisher matrix is singular,
    [uncertainties] raises numpy's [LinAlgError], not a
    [SingularMatrixError]. *)
Lemma uncertainties_error_is_not_SingularMatrixError :
  core.fisher_information_matrix
    (Likelihood := core.MultinomialLikelihood_Likelihood (PR := dup_providers))
    dup_fitted
  = Ok dup_fisher /\
  np_linalg_inv (Providers := dup_providers) dup_fisher = None /\
  core.uncertainties (PR := dup_providers)
    (L := core.MultinomialLikelihood_Likelihood (PR := dup_providers))
    dup_fitted
  = Raise (LinAlgError "Singular matrix") /\
  String.eqb (exc_class (LinAlgError "Singular matrix"))
             "SingularMatrixError" = false.
Proof. repeat split. Qed.

End TriExamples.

Section BerExamples.
Import symbolic.
#[local] Existing Instance ber_providers.
#[local] Existing Instance core.MultinomialLikelihood_Likelihood.
#[local] Existing Instance core.PoissonLikelihood_Likelihood.

(** C3 at the docstring's model. *)
Lemma multinomial_evaluate_witness :
  ber_pmf (unpack [SVar "p"])
  = Ok (Arr [SVar "p"; SSub (SInt 1) (SVar "p")]) /\
  core.evaluate ber_unfit [SVar "p"]
  = Ok (SNeg (SSum [SMul (SInt 20) (SLog (SVar "p"));
                    SMul (SInt 30) (SLog (SSub (SInt 1) (SVar "p")))])).
Proof.
  split; [reflexivity|].
  exact (proj1 (multinomial_evaluate_spec ber_unfit [SVar "p"]
                  [SVar "p"; SSub (SInt 1) (SVar "p")] eq_refl eq_refl)).
Defined.

(** C4 at the mean [ramp_mean] on the counts [3, 5]. *)
Lemma poisson_evaluate_witness :
  ramp_mean (unpack [SVar "t"])
  = Ok (Arr [SVar "t"; SMul (SInt 2) (SVar "t")]) /\
  core.evaluate ramp_unfit [SVar "t"]
  = Ok (SSum [SSub (SVar "t") (SMul (SInt 3) (SLog (SVar "t")));
              SSub (SMul (SInt 2) (SVar "t"))
                   (SMul (SInt 5) (SLog (SMul (SInt 2) (SVar "t"))))]).
Proof.
  split; [reflexivity|].
  exact (poisson_evaluate_spec ramp_unfit [SVar "t"]
           [SVar "t"; SMul (SInt 2) (SVar "t")] eq_refl eq_refl).
Defined.

(** C5: the exception of an unfit instance is an [AttributeError], not a
    [PreconditionError]. *)
Lemma unfit_error_is_not_PreconditionError :
  core.fisher_information_matrix ber_unfit
  = Raise (AttributeError "MultinomialLikelihood" "opt_result") /\
  core.uncertainties ber_unfit
  = Raise (AttributeError "MultinomialLikelihood" "opt_result") /\
  String.eqb (exc_class (AttributeError "MultinomialLikelihood" "opt_result"))
             "PreconditionError" = false.
Proof. repeat split. Qed.



End BerExamples.

Section FloatExamples.
Import binary64.
#[local] Existing Instance loss.L1Norm_LossFunction.
Local Open Scope float_scope.

(** C9 at a scalar regularization: on the data [1, 2] and the model
    [0, 0], weight 1 and term 1, the code returns (1 + 1) + (2 + 1) = 5
    where the specified formula gives (1 + 2) + 1 = 4; and on the data
    [nan, 2] without regularization the code returns 2 where a plain sum
    is NaN. *)
Lemma l1norm_evaluate_counterexample :
  loss.evaluate l1_penalized [7; 1] = Ok 5 /\
  L1Norm_evaluate_as_specified l1_penalized [7; 1] = Ok 4 /\
  PrimFloat.eqb 5 4 = false /\
  loss.evaluate (l1_plain [nan; 2]) [7] = Ok 2 /\
  L1Norm_evaluate_as_specified (l1_plain [nan; 2]) [7] = Ok nan.
Proof. repeat split. Qed.

(** C9, as the code has it, at the same regularized loss. *)
Lemma l1norm_evaluate_witness :
  loss._evaluate l1_penalized = loss.evaluate_w_regularization /\
  loss.evaluate l1_penalized ([7] ++ [1]) = Ok 5.
Proof.
  split; [reflexivity|].
  exact (proj1 (proj2 (proj2 l1norm_evaluate_spec))
           l1_penalized unit_penalty [7] 1 [0; 0] 1
           eq_refl eq_refl eq_refl eq_refl eq_refl).
Defined.

(** C10: after construction with [unit_penalty], assigning [None] makes
    [evaluate] raise and assigning [two_penalty] changes its value. *)
Lemma l1norm_reassignment_counterexample :
  loss.evaluate l1_penalized [7; 1] = Ok 5 /\
  loss.evaluate (loss.set_regularization None l1_penalized) [7; 1]
  = Raise (TypeError "'NoneType' object is not callable") /\
  loss.evaluate (loss.set_regularization (Some two_penalty) l1_penalized)
                [7; 1]
  = Ok 7 /\
  PrimFloat.eqb 5 7 = false.
Proof. repeat split. Qed.

(** C10, as the code has it, at the same loss. *)
Lemma l1norm_evaluation_path_witness :
  last [7; 1] = Some 1 /\
  loss.evaluate (loss.set_regularization None l1_penalized) [7; 1]
  = Raise (TypeError "'NoneType' object is not callable").
Proof.
  split; [reflexivity|].
  exact (proj2 (proj2 (proj2 l1norm_evaluation_path_fixed_at_construction))
           [1; 2] zero_model unit_penalty [7; 1] (Arr [0; 0]) 1
           eq_refl eq_refl eq_refl).
Defined.

End FloatExamples.

(** * Further properties *)

(** ** Loops, once more *)

Section MoreLoops.
Context {St : Type}.
Implicit Types (body : nat -> St -> result St) (l : list nat).

(** One loop body run from two states: a relation kept by every iteration
    that returns, with the body raising from both states or from neither,
    relates the two runs. *)
Lemma for_each_alike body (R : nat -> St -> St -> Prop) l s1 s2 :
  R 0 s1 s2 ->
  (forall k i t1 t2, l !! k = Some i -> R k t1 t2 ->
     ends_alike (R (S k)) (body i t1) (body i t2)) ->
  ends_alike (R (length l)) (for_each body l s1) (for_each body l s2).
Proof.
  revert R s1 s2. induction l as [|i l IH]; intros R s1 s2 H0 Hstep.
  - exact H0.
  - pose proof (Hstep 0 i s1 s2 eq_refl H0) as Hhead. simpl.
    destruct (body i s1) as [t1|e1], (body i s2) as [t2|e2];
      simpl in *; try contradiction; [|exact Hhead].
    apply (IH (fun k => R (S k)) t1 t2 Hhead).
    intros k j u1 u2 Hk Hu. apply (Hstep (S k) j u1 u2); assumption.
Qed.

(** The loop raises what its first failing iteration raises. *)
Lemma for_each_raises body (Inv : nat -> St -> Prop) l s k i e :
  Inv 0 s ->
  l !! k = Some i ->
  (forall k' i' t, k' < k -> l !! k' = Some i' -> Inv k' t ->
     exists t', body i' t = Ok t' /\ Inv (S k') t') ->
  (forall t, Inv k t -> body i t = Raise e) ->
  for_each body l s = Raise e.
Proof.
  revert Inv s k. induction l as [|j l IH]; intros Inv s k H0 Hk Hbefore Hfail.
  - discriminate.
  - destruct k as [|k]; simpl in Hk.
    + injection Hk as ->. simpl. rewrite (Hfail s H0). reflexivity.
    + destruct (Hbefore 0 j s) as (t & Hb & Ht); [lia|reflexivity|exact H0|].
      simpl. rewrite Hb. cbn [rbind].
      apply (IH (fun m => Inv (S m)) t k Ht Hk).
      * intros k' i' u Hlt Hl Hu. apply (Hbefore (S k') i' u); [lia|exact Hl|exact Hu].
      * exact Hfail.
Qed.

End MoreLoops.

Section MoreMatrices.
Context {F : Type} {F64 : Float64 F}.
Implicit Types (M : matrix F).

(** Two [n] by [n] arrays with the same entries are the same array. *)
Lemma square_ext n M1 M2 :
  square n M1 -> square n M2 ->
  (forall a b, a < n -> b < n -> get_item M1 a b = get_item M2 a b) ->
  M1 = M2.
Proof.
  intros H1 H2 Hget. apply list_eq. intros a.
  destruct (decide (a < n)) as [Ha|Ha].
  - destruct (square_lookup n M1 a H1 Ha) as (r1 & Hr1 & Hl1).
    destruct (square_lookup n M2 a H2 Ha) as (r2 & Hr2 & Hl2).
    rewrite Hr1, Hr2. f_equal. apply list_eq. intros b.
    destruct (decide (b < n)) as [Hb|Hb].
    + specialize (Hget a b Ha Hb). unfold get_item in Hget.
      rewrite Hr1, Hr2 in Hget. exact Hget.
    + rewrite !lookup_ge_None_2 by lia. reflexivity.
  - destruct H1 as [Hn1 _], H2 as [Hn2 _].
    rewrite !lookup_ge_None_2 by lia. reflexivity.
Qed.

End MoreMatrices.

(** ** The pairwise loops, once more *)

Section MoreFisherLoops.
Context {F : Type} {F64 : Float64 F}.
Implicit Types (M : matrix F) (f : callable F) (grad : list (callable F)).
Implicit Types (xs : list F).

Lemma ends_alike_eq {A} (R : A -> A -> Prop) (r1 r2 : result A) :
  ends_alike R r1 r2 -> (forall a b, R a b -> a = b) -> r1 = r2.
Proof.
  intros Hr Heq. destruct r1 as [a|e1], r2 as [b|e2]; simpl in Hr;
    try contradiction.
  - f_equal. apply Heq. exact Hr.
  - f_equal. exact Hr.
Qed.

Lemma agree_row_start n i M1 M2 : agree n i 0 M1 M2 -> agree n i i M1 M2.
Proof.
  intros (H1 & H2 & Hget). split; [exact H1|split; [exact H2|]].
  intros a b Ha Hb Hd. apply Hget; [assumption..|]. lia.
Qed.

Lemma agree_row_end n i M1 M2 : agree n i n M1 M2 -> agree n (S i) 0 M1 M2.
Proof.
  intros (H1 & H2 & Hget). split; [exact H1|split; [exact H2|]].
  intros a b Ha Hb Hd. apply Hget; [assumption..|]. lia.
Qed.

Lemma pair_step_alike n grad f xs i j M1 M2 :
  agree n i j M1 M2 -> i <= j < n ->
  ends_alike (agree n i (S j))
    (core.pair_step grad f xs i j M1) (core.pair_step grad f xs i j M2).
Proof.
  intros (H1 & H2 & Hget) Hij.
  rewrite !(pair_step_eq n) by (assumption || lia).
  destruct (core.pairwise_term grad f xs i j) as [v|e]; simpl; [|reflexivity].
  split; [apply set_pair_square; exact H1|].
  split; [apply set_pair_square; exact H2|].
  intros a b Ha Hb Hd.
  rewrite !(get_set_pair n) by (assumption || lia).
  case_decide as Hab; [reflexivity|].
  apply Hget; [assumption..|].
  destruct Hd as [Hd|[Hmin Hmax]]; [left; exact Hd|].
  right. split; [exact Hmin|].
  destruct (decide (a `max` b = j)) as [Hj|Hj]; [|lia].
  exfalso. apply Hab. lia.
Qed.

Lemma row_loop_alike n grad f xs i M1 M2 :
  agree n i 0 M1 M2 -> i < n ->
  ends_alike (agree n (S i) 0)
    (for_each (core.pair_step grad f xs i) (seq i (n - i)) M1)
    (for_each (core.pair_step grad f xs i) (seq i (n - i)) M2).
Proof.
  intros HM Hi.
  pose proof (for_each_alike (core.pair_step grad f xs i)
                (fun k => agree n i (i + k)) (seq i (n - i)) M1 M2) as Hloop.
  rewrite length_seq in Hloop. replace (i + (n - i)) with n in Hloop by lia.
  assert (Hrun : ends_alike (agree n i n)
    (for_each (core.pair_step grad f xs i) (seq i (n - i)) M1)
    (for_each (core.pair_step grad f xs i) (seq i (n - i)) M2)).
  { apply Hloop.
    - rewrite Nat.add_0_r. apply agree_row_start. exact HM.
    - intros k j t1 t2 Hk Ht. apply seq_lookup_plus in Hk as [-> Hk].
      replace (i + S k) with (S (i + k)) by lia.
      apply pair_step_alike; [exact Ht|lia]. }
  destruct (for_each (core.pair_step grad f xs i) (seq i (n - i)) M1),
           (for_each (core.pair_step grad f xs i) (seq i (n - i)) M2);
    simpl in *; try assumption.
  apply agree_row_end. exact Hrun.
Qed.

(** The loops end the same way from any two [n] by [n] buffers. *)
Lemma loops_from_any_buffer n grad f xs M1 M2 :
  square n M1 -> square n M2 ->
  for_each (fun i fisher =>
              for_each (core.pair_step grad f xs i) (seq i (n - i)) fisher)
           (seq 0 n) M1
  = for_each (fun i fisher =>
                for_each (core.pair_step grad f xs i) (seq i (n - i)) fisher)
             (seq 0 n) M2.
Proof.
  intros H1 H2.
  pose proof (for_each_alike
    (fun i fisher =>
       for_each (core.pair_step grad f xs i) (seq i (n - i)) fisher)
    (fun k => agree n k 0) (seq 0 n) M1 M2) as Hloop.
  rewrite length_seq in Hloop.
  eapply ends_alike_eq.
  - apply Hloop.
    + split; [exact H1|split; [exact H2|]]. intros a b _ _ Hd. lia.
    + intros k i t1 t2 Hk Ht. apply seq_lookup_plus in Hk as [-> Hk].
      simpl in *. apply row_loop_alike; [exact Ht|lia].
  - intros A B (HA & HB & Hget). apply (square_ext n); try assumption.
    intros a b Ha Hb. apply Hget; [assumption..|]. lia.
Qed.

(** The terms of a row that ran to its end could all be computed. *)
Lemma row_loop_computed n grad f xs i M M' :
  filled n (term_of grad f xs) i 0 M -> i < n ->
  computed n grad f xs i 0 ->
  for_each (core.pair_step grad f xs i) (seq i (n - i)) M = Ok M' ->
  computed n grad f xs (S i) 0.
Proof.
  intros HM Hi Hc Hrun.
  apply (for_each_partial _
           (fun k t => filled n (term_of grad f xs) i (i + k) t /\
                       computed n grad f xs i (i + k))) in Hrun.
  - rewrite length_seq in Hrun. destruct Hrun as [_ Hdone].
    intros a b Hab Hd. apply Hdone; [exact Hab|]. lia.
  - split; [rewrite Nat.add_0_r; apply filled_row_start; exact HM|].
    intros a b Hab Hd. apply Hc; [exact Hab|]. lia.
  - intros k j t t' Hk [Ht Hck] Hstep. apply seq_lookup_plus in Hk as [-> Hk].
    replace (i + S k) with (S (i + k)) by lia. split.
    + apply (pair_step_filled n grad f xs i (i + k) t t' Ht); [lia|exact Hstep].
    + intros a b Hab Hd.
      destruct (decide (a = i /\ b = i + k)) as [[-> ->]|Hne].
      * rewrite (pair_step_eq n) in Hstep by (apply Ht || lia).
        destruct (core.pairwise_term grad f xs i (i + k)); [reflexivity|].
        discriminate.
      * apply Hck; [exact Hab|]. lia.
Qed.

Lemma computed_row n grad f xs i :
  computed n grad f xs i 0 -> i < n ->
  (forall j, i <= j < n ->
     is_ok (core.pairwise_term grad f xs i j) = true) ->
  computed n grad f xs (S i) 0.
Proof.
  intros Hc Hi Hrow a b Hab Hd.
  destruct (decide (a = i)) as [->|Hne].
  - apply Hrow. lia.
  - apply Hc; [exact Hab|]. lia.
Qed.

End MoreFisherLoops.

(** ** core.py, once more *)

Section MoreCoreFacts.
Context {F : Type} {F64 : Float64 F} {LM : Libm F} {PR : Providers F}.
Implicit Types (f : callable F) (opt : OptimizeResult F).

#[local] Existing Instance core.MultinomialLikelihood_Likelihood.
#[local] Existing Instance core.PoissonLikelihood_Likelihood.
#[local] Existing Instance loss.L1Norm_LossFunction.

(** When both loops return, every term with [i <= j] could be computed. *)
Lemma fisher_loops_computed f opt M :
  core.fisher_loops f opt = Ok M ->
  computed (length (x opt)) (grad_list f opt) f (x opt) (length (x opt)) 0.
Proof.
  intros Hrun. unfold core.fisher_loops in Hrun.
  apply (for_each_partial _
           (fun k t =>
              filled (length (x opt)) (term_of (grad_list f opt) f (x opt))
                     k 0 t /\
              computed (length (x opt)) (grad_list f opt) f (x opt) k 0))
    in Hrun.
  - rewrite length_seq in Hrun. exact (proj2 Hrun).
  - split; [apply np_empty_filled|]. intros a b Hab Hd. lia.
  - intros k i t t' Hk [Ht Hc] Hrow. apply seq_lookup_plus in Hk as [-> Hk].
    simpl in *. split.
    + eapply row_loop_filled; [exact Ht|lia|exact Hrow].
    + eapply row_loop_computed; [exact Ht|lia|exact Hc|exact Hrow].
Qed.

(** The loops raise what the first failing term raises. *)
Lemma fisher_loops_raises f opt i j e :
  i <= j < length (x opt) ->
  computed (length (x opt)) (grad_list f opt) f (x opt) i j ->
  core.pairwise_term (grad_list f opt) f (x opt) i j = Raise e ->
  core.fisher_loops f opt = Raise e.
Proof.
  intros Hij Hc Hterm. unfold core.fisher_loops.
  change (map (jacobian f) (seq 0 (length (x opt)))) with (grad_list f opt).
  apply (for_each_raises _
           (fun k t =>
              filled (length (x opt)) (term_of (grad_list f opt) f (x opt))
                     k 0 t) _ _ i i).
  - apply np_empty_filled.
  - apply lookup_seq_lt. lia.
  - intros k' i' t Hlt Hk Ht. apply seq_lookup_plus in Hk as [-> Hk].
    simpl in *.
    destruct (row_loop_returns _ _ _ _ k' t Ht Hk) as [t' Hrow].
    { intros b Hb. apply Hc; lia. }
    exists t'. split; [exact Hrow|].
    eapply row_loop_filled; [exact Ht|lia|exact Hrow].
  - intros t Ht.
    apply (for_each_raises _
             (fun k u =>
                filled (length (x opt)) (term_of (grad_list f opt) f (x opt))
                       i (i + k) u) _ _ (j - i) j).
    + rewrite Nat.add_0_r. apply filled_row_start. exact Ht.
    + rewrite lookup_seq_lt by lia. f_equal. lia.
    + intros k' j' u Hlt Hk Hu. apply seq_lookup_plus in Hk as [-> Hk].
      assert (Hstep : exists u',
        core.pair_step (grad_list f opt) f (x opt) i (i + k') u = Ok u').
      { rewrite (pair_step_eq (length (x opt))) by (apply Hu || lia).
        pose proof (Hc i (i + k') ltac:(lia) ltac:(lia)) as Hok.
        destruct (core.pairwise_term (grad_list f opt) f (x opt) i (i + k'));
          [|discriminate].
        simpl. eauto. }
      destruct Hstep as [u' Hstep]. exists u'. split; [exact Hstep|].
      replace (i + S k') with (S (i + k')) by lia.
      apply (pair_step_filled _ _ _ _ i (i + k') u u' Hu); [lia|exact Hstep].
    + intros u Hu.
      rewrite (pair_step_eq (length (x opt))) by (apply Hu || lia).
      rewrite Hterm. reflexivity.
Qed.

(** X1.  The matrix [MultinomialLikelihood.fisher_information_matrix]
    returns, or the exception it raises, does not depend on what the
    [np.empty] buffer held: every cell is assigned before it is read. *)
Theorem fisher_information_matrix_ignores_the_buffer
    (kw : Type) (jac : callable F -> nat -> callable F)
    (mini : (list F -> result F) -> nd F -> string -> kw ->
            result (OptimizeResult F))
    (inv : matrix F -> option (matrix F)) (u1 u2 : nat -> nat -> F)
    (self : core.MultinomialLikelihood F) :
  core.MultinomialLikelihood_fisher_information_matrix
    (PR := {| kwargs := kw; jacobian := jac; minimize := mini;
              np_linalg_inv := inv; uninit := u1 |}) self
  = core.MultinomialLikelihood_fisher_information_matrix
      (PR := {| kwargs := kw; jacobian := jac; minimize := mini;
                np_linalg_inv := inv; uninit := u2 |}) self.
Proof.
  unfold core.MultinomialLikelihood_fisher_information_matrix.
  rewrite !bound_call_self.
  destruct (core.mn_opt_result self) as [opt|]; [|reflexivity].
  cbn [rbind]. f_equal. unfold core.fisher_loops. cbn [jacobian].
  apply (loops_from_any_buffer (length (x opt))); apply np_empty_square.
Qed.

(** X2.  On a fitted multinomial instance [fisher_information_matrix]
    returns a matrix exactly when each expression
    [(grad_i * grad_j / pmf).sum()] with [i <= j] can be computed at the
    fitted parameters. *)
Theorem multinomial_fisher_returns_iff
    (self : core.MultinomialLikelihood F) opt :
  core.mn_opt_result self = Some opt ->
  (exists M, core.fisher_information_matrix self = Ok M) <->
  (forall i j, i <= j < length (x opt) ->
     is_ok (core.pairwise_term (grad_list (core.mn_pmf self) opt)
              (core.mn_pmf self) (x opt) i j) = true).
Proof.
  intros Hopt. rewrite (multinomial_fisher_unfold self opt Hopt). split.
  - intros [M HM] i j Hij.
    destruct (core.fisher_loops (core.mn_pmf self) opt) as [M0|e] eqn:Hrun;
      [|discriminate].
    apply fisher_loops_computed in Hrun. apply Hrun; lia.
  - intros Hok.
    destruct (fisher_loops_returns (core.mn_pmf self) opt Hok) as [M0 Hrun].
    rewrite Hrun. eexists. reflexivity.
Qed.

(** X3.  On a fitted multinomial instance, when the expression for the pair
    [(i, j)], [i <= j], raises and those of the pairs before it in loop
    order (earlier rows, and earlier columns of row [i]) do not,
    [fisher_information_matrix] raises that same exception, and so does
    [uncertainties]. *)
Theorem multinomial_fisher_raises_the_first_error
    (self : core.MultinomialLikelihood F) opt i j e :
  core.mn_opt_result self = Some opt ->
  i <= j < length (x opt) ->
  (forall a b, a <= b < length (x opt) -> a < i \/ (a = i /\ b < j) ->
     is_ok (core.pairwise_term (grad_list (core.mn_pmf self) opt)
              (core.mn_pmf self) (x opt) a b) = true) ->
  core.pairwise_term (grad_list (core.mn_pmf self) opt)
    (core.mn_pmf self) (x opt) i j = Raise e ->
  core.fisher_information_matrix self = Raise e /\
  core.uncertainties self = Raise e.
Proof.
  intros Hopt Hij Hbefore Hterm.
  assert (Hf : core.fisher_information_matrix self = Raise e).
  { rewrite (multinomial_fisher_unfold self opt Hopt).
    rewrite (fisher_loops_raises (core.mn_pmf self) opt i j e Hij Hbefore Hterm).
    reflexivity. }
  split; [exact Hf|]. unfold core.uncertainties. rewrite Hf. reflexivity.
Qed.

(** X4.  The observed counts enter the Fisher matrix through their sum
    only: two multinomial instances with the same model, the same stored
    fit result and counts of the same [sum()] have the same
    [fisher_information_matrix]. *)
Theorem multinomial_fisher_depends_on_the_total_count
    (self other : core.MultinomialLikelihood F) :
  core.mn_pmf self = core.mn_pmf other ->
  core.mn_opt_result self = core.mn_opt_result other ->
  fsum (core.mn_data self) = fsum (core.mn_data other) ->
  core.MultinomialLikelihood_fisher_information_matrix self
  = core.MultinomialLikelihood_fisher_information_matrix other.
Proof.
  intros Hpmf Hopt Hsum.
  unfold core.MultinomialLikelihood_fisher_information_matrix.
  rewrite !bound_call_self. unfold core.n_counts.
  rewrite Hpmf, Hopt, Hsum. reflexivity.
Qed.

(** X5.  [fit] changes nothing but [opt_result]: the data, the model and
    (for [L1Norm]) the regularization and the bound evaluation method are
    kept; [opt_result] becomes the returned result, and keeps its previous
    value when the optimizer raises. *)
Theorem fit_changes_opt_result_only :
  (forall (self : core.MultinomialLikelihood F) x0 method kw,
     core.mn_data (core.fit self x0 method kw).1 = core.mn_data self /\
     core.mn_pmf (core.fit self x0 method kw).1 = core.mn_pmf self /\
     core.mn_opt_result (core.fit self x0 method kw).1
     = match (core.fit self x0 method kw).2 with
       | Ok r => Some r
       | Raise _ => core.mn_opt_result self
       end) /\
  (forall (self : core.PoissonLikelihood F) x0 method kw,
     core.po_data (core.fit self x0 method kw).1 = core.po_data self /\
     core.po_mean (core.fit self x0 method kw).1 = core.po_mean self /\
     core.po_opt_result (core.fit self x0 method kw).1
     = match (core.fit self x0 method kw).2 with
       | Ok r => Some r
       | Raise _ => core.po_opt_result self
       end) /\
  (forall (self : loss.L1Norm F) x0 method kw,
     loss.data (loss.fit self x0 method kw).1 = loss.data self /\
     loss.model (loss.fit self x0 method kw).1 = loss.model self /\
     loss._regularization (loss.fit self x0 method kw).1
     = loss._regularization self /\
     loss._evaluate (loss.fit self x0 method kw).1 = loss._evaluate self /\
     loss.l1_opt_result (loss.fit self x0 method kw).1
     = match (loss.fit self x0 method kw).2 with
       | Ok r => Some r
       | Raise _ => loss.l1_opt_result self
       end).
Proof.
  split; [|split].
  - intros self x0 method kw. unfold core.fit.
    destruct (minimize _ _ _ _); repeat split.
  - intros self x0 method kw. unfold core.fit.
    destruct (minimize _ _ _ _); repeat split.
  - intros self x0 method kw. unfold loss.fit.
    destruct (minimize _ _ _ _); repeat split.
Qed.

(** X6.  [fit] followed by [uncertainties] on a multinomial instance: when
    the optimizer returns [r] and the gradients at [r.x] have the shape of
    [pmf]'s output, [fisher_information_matrix] of the fitted instance
    returns the matrix whose entry [i, j] is [sum(data)] times the sum of
    [(grad_min * grad_max) / pmf] at [r.x], and [uncertainties] raises
    [LinAlgError] or returns the square roots of the diagonal of its
    inverse, as [numpy.linalg.inv] decides. *)
Theorem fit_then_uncertainties
    (self : core.MultinomialLikelihood F) x0 method kw r (p : list F)
    (g : nat -> list F) :
  minimize (core.evaluate self) x0
    (match method with Some m => m | None => "Nelder-Mead" end) kw = Ok r ->
  core.mn_pmf self (unpack (x r)) = Ok (Arr p) ->
  (forall i, i < length (x r) ->
     jacobian (core.mn_pmf self) i (unpack (x r)) = Ok (Arr (g i)) /\
     length (g i) = length p) ->
  exists M,
    core.fisher_information_matrix (core.fit self x0 method kw).1 = Ok M /\
    (forall i j, i < length (x r) -> j < length (x r) ->
       get_item M i j
       = Some (fmul (fsum (core.mn_data self))
                 (fisher_sum (g (i `min` j)) (g (i `max` j)) p))) /\
    core.uncertainties (core.fit self x0 method kw).1
    = match np_linalg_inv M with
      | Some inv_fisher => Ok (map fsqrt (np_diag inv_fisher))
      | None => Raise (LinAlgError "Singular matrix")
      end.
Proof.
  intros Hmin Hp Hg.
  assert (Hfit : (core.fit self x0 method kw).1 = core.set_opt_result r self).
  { unfold core.fit. destruct method as [m|]; cbn [from_option id];
      rewrite Hmin; reflexivity. }
  rewrite Hfit.
  assert (Hterm : forall i j, i < length (x r) -> j < length (x r) ->
    core.pairwise_term (grad_list (core.mn_pmf self) r) (core.mn_pmf self)
      (x r) i j = Ok (fisher_sum (g i) (g j) p)).
  { intros i j Hi Hj. apply pairwise_term_value; assumption. }
  destruct (fisher_loops_returns (core.mn_pmf self) r) as [M0 Hrun].
  { intros i j Hij. rewrite Hterm by lia. reflexivity. }
  pose proof (fisher_loops_filled _ _ _ Hrun) as [Hsq Hget].
  assert (Hfisher :
    core.fisher_information_matrix (core.set_opt_result r self)
    = Ok (scale (fsum (core.mn_data self)) M0)).
  { rewrite (multinomial_fisher_unfold _ r) by reflexivity.
    cbn [core.set_opt_result core.MultinomialLikelihood_Likelihood
         core.mn_pmf core.mn_data]. rewrite Hrun. reflexivity. }
  exists (scale (fsum (core.mn_data self)) M0). split; [exact Hfisher|]. split.
  - intros i j Hi Hj. rewrite get_item_scale, (Hget i j) by lia.
    unfold term_of. rewrite Hterm by lia. reflexivity.
  - unfold core.uncertainties. rewrite Hfisher. reflexivity.
Qed.

(** X7.  When [mean] returns a scalar (one rate for every observation),
    [PoissonLikelihood.evaluate] broadcasts it over the data: the result is
    the sum over the observations [d] of [m - d * log(m)]. *)
Theorem poisson_evaluate_scalar_mean
    (self : core.PoissonLikelihood F) (params : list F) (m : F) :
  core.po_mean self (unpack params) = Ok (Num m) ->
  core.evaluate self params
  = Ok (fsum (map (fun d => fsub m (fmul d (flog m))) (core.po_data self))).
Proof.
  intros Hm.
  cbn [core.evaluate core.PoissonLikelihood_Likelihood].
  unfold core.PoissonLikelihood_evaluate. rewrite Hm.
  cbn [rbind nd_map broadcast2 nd_sum]. rewrite map_map. reflexivity.
Qed.

End MoreCoreFacts.

(** ** loss.py, once more *)

Section MoreLossFacts.
Context {F : Type} {F64 : Float64 F}.
Implicit Types (self : loss.L1Norm F) (params rest d mv : list F).
Implicit Types (g : callable F).

#[local] Existing Instance loss.L1Norm_LossFunction.

Lemma all_nan_to_zero (h : F -> F) (l : list F) :
  Forall (fun a => fisnan (h a) = true) l ->
  map nan_to_zero (map h l) = replicate (length l) fzero.
Proof.
  induction 1 as [|a l Ha _ IH]; [reflexivity|].
  simpl. unfold nan_to_zero at 1. rewrite Ha, IH. reflexivity.
Qed.

(** X8.  On the regularized path [evaluate] needs at least one parameter:
    with none, once the model has been called on the empty sequence and the
    residuals formed, [params[-1]] raises [IndexError], whatever the
    regularization is. *)
Theorem l1norm_regularized_evaluate_needs_a_parameter self (r : nd F) :
  loss._evaluate self = loss.evaluate_w_regularization ->
  loss.model self [ArgSeq []] = Ok r ->
  is_ok (broadcast2 fsub (Arr (loss.data self)) r) = true ->
  loss.evaluate self [] = Raise (IndexError "tuple index out of range").
Proof.
  intros Hpath Hm Hsub.
  cbn [loss.evaluate loss.L1Norm_LossFunction]. unfold loss.L1Norm_evaluate.
  rewrite Hpath. unfold loss.L1Norm_evaluate_w_regularization.
  cbn [removelast]. rewrite Hm. cbn [rbind].
  destruct (broadcast2 fsub (Arr (loss.data self)) r); [|discriminate].
  reflexivity.
Qed.

(** X9.  On the regularized path, when the weighted scalar regularization
    term makes every summand NaN (a NaN term does), [evaluate] raises
    nothing and returns no NaN: every summand is replaced by zero and the
    result is the sum of as many zeros as there are data. *)
Theorem l1norm_nan_penalty_hides_the_residuals self g rest (w : F) mv (s : F) :
  loss._evaluate self = loss.evaluate_w_regularization ->
  loss.regularization self = Some g ->
  loss.model self [ArgSeq rest] = Ok (Arr mv) ->
  length mv = length (loss.data self) ->
  g [ArgSeq rest] = Ok (Num s) ->
  Forall (fun a => fisnan (fadd a (fmul w s)) = true)
         (abs_residuals (loss.data self) mv) ->
  loss.evaluate self (rest ++ [w])
  = Ok (fsum (replicate (length (loss.data self)) fzero)).
Proof.
  intros Hpath Hreg Hm Hlen Hg Hnan.
  cbn [loss.evaluate loss.L1Norm_LossFunction]. unfold loss.L1Norm_evaluate.
  rewrite Hpath. unfold loss.L1Norm_evaluate_w_regularization.
  destruct (last_item_snoc rest w) as [-> ->].
  rewrite Hm, Hreg. cbn [rbind].
  rewrite broadcast2_same_length by lia. cbn [rbind nd_map].
  rewrite Hg. cbn [rbind broadcast2 nd_map].
  unfold np_nansum. cbn [nd_map nd_sum].
  rewrite (map_zip_with fabs). fold (abs_residuals (loss.data self) mv).
  rewrite (all_nan_to_zero _ _ Hnan).
  unfold abs_residuals. rewrite length_zip_with_l_eq by lia. reflexivity.
Qed.

End MoreLossFacts.

(** ** The further properties at concrete inputs *)

Section MoreTriExamples.
Import symbolic.
#[local] Existing Instance core.MultinomialLikelihood_Likelihood.

(** X2 at the model [tri_pmf]. *)
Lemma multinomial_fisher_returns_iff_witness :
  core.mn_opt_result tri_fitted = Some tri_opt /\
  ((exists M,
      core.fisher_information_matrix
        (Likelihood :=
           core.MultinomialLikelihood_Likelihood (PR := tri_providers))
        tri_fitted = Ok M) <->
   (forall i j, i <= j < 2 ->
      is_ok (core.pairwise_term
               (grad_list (PR := tri_providers) tri_pmf tri_opt)
               tri_pmf (x tri_opt) i j) = true)).
Proof.
  split; [reflexivity|].
  exact (multinomial_fisher_returns_iff (PR := tri_providers)
           tri_fitted tri_opt eq_refl).
Defined.

(** X3 at the model [tri_pmf] differentiated by [half_jacobian]: the term
    of the pair (0, 0) is computed, that of (0, 1) raises. *)
Lemma multinomial_fisher_raises_the_first_error_witness :
  core.pairwise_term (grad_list (PR := half_providers) tri_pmf tri_opt)
    tri_pmf (x tri_opt) 0 1
  = Raise (TypeError "cannot differentiate with respect to argument 1") /\
  core.fisher_information_matrix
    (Likelihood :=
       core.MultinomialLikelihood_Likelihood (PR := half_providers))
    tri_fitted
  = Raise (TypeError "cannot differentiate with respect to argument 1") /\
  core.uncertainties (PR := half_providers)
    (L := core.MultinomialLikelihood_Likelihood (PR := half_providers))
    tri_fitted
  = Raise (TypeError "cannot differentiate with respect to argument 1").
Proof.
  split; [reflexivity|].
  refine (multinomial_fisher_raises_the_first_error (PR := half_providers)
            tri_fitted tri_opt 0 1 _ eq_refl _ _ eq_refl).
  - simpl. lia.
  - intros a b Hab Hd. simpl in Hab.
    assert (a = 0 /\ b = 0) as [-> ->] by lia. reflexivity.
Defined.

End MoreTriExamples.

Section MoreBerExamples.
Import symbolic.
#[local] Existing Instance ber_providers.
#[local] Existing Instance core.MultinomialLikelihood_Likelihood.
#[local] Existing Instance core.PoissonLikelihood_Likelihood.

(** X6 at the docstring's model, fitted by the run [stalled]. *)
Lemma fit_then_uncertainties_witness :
  exists M,
    core.fisher_information_matrix (T := core.MultinomialLikelihood sym)
      (core.fit ber_unfit (Num (SVar "p0")) None tt).1 = Ok M /\
    (forall i j, i < 1 -> j < 1 ->
       get_item M i j
       = Some (SMul (SSum ber_counts)
                 (fisher_sum [SInt 1; SInt (-1)] [SInt 1; SInt (-1)]
                    [SVar "p"; SSub (SInt 1) (SVar "p")]))) /\
    core.uncertainties (T := core.MultinomialLikelihood sym)
      (core.fit ber_unfit (Num (SVar "p0")) None tt).1
    = match np_linalg_inv M with
      | Some inv_fisher => Ok (map fsqrt (np_diag inv_fisher))
      | None => Raise (LinAlgError "Singular matrix")
      end.
Proof.
  refine (fit_then_uncertainties ber_unfit (Num (SVar "p0")) None tt stalled
            [SVar "p"; SSub (SInt 1) (SVar "p")]
            (fun _ => [SInt 1; SInt (-1)]) eq_refl eq_refl _).
  intros i Hi. simpl in Hi. assert (i = 0) as -> by lia.
  split; reflexivity.
Defined.

(** X7 at the mean [flat_mean] on the counts [3, 5]. *)
Lemma poisson_evaluate_scalar_mean_witness :
  flat_mean (unpack [SVar "t"]) = Ok (Num (SVar "t")) /\
  core.evaluate flat_unfit [SVar "t"]
  = Ok (SSum [SSub (SVar "t") (SMul (SInt 3) (SLog (SVar "t")));
              SSub (SVar "t") (SMul (SInt 5) (SLog (SVar "t")))]).
Proof.
  split; [reflexivity|].
  exact (poisson_evaluate_scalar_mean flat_unfit [SVar "t"] (SVar "t")
           eq_refl).
Defined.

End MoreBerExamples.

Section MoreFloatExamples.
Import binary64.
#[local] Existing Instance loss.L1Norm_LossFunction.
Local Open Scope float_scope.

(** X4 at the counts [2, 4, 2] and [3, 3, 2], both of total 8. *)
Lemma multinomial_fisher_depends_on_the_total_count_witness :
  fsum [2; 4; 2] = fsum [3; 3; 2] /\
  core.MultinomialLikelihood_fisher_information_matrix
    (PR := tri_providers) (tri_fitted [2; 4; 2])
  = core.MultinomialLikelihood_fisher_information_matrix
      (PR := tri_providers) (tri_fitted [3; 3; 2]) /\
  core.MultinomialLikelihood_fisher_information_matrix
    (PR := tri_providers) (tri_fitted [2; 4; 2])
  = Ok [[64; 32]; [32; 48]].
Proof.
  split; [reflexivity|]. split; [|reflexivity].
  exact (multinomial_fisher_depends_on_the_total_count (PR := tri_providers)
           (tri_fitted [2; 4; 2]) (tri_fitted [3; 3; 2])
           eq_refl eq_refl eq_refl).
Defined.

(** X8 at the regularized loss [l1_penalized]. *)
Lemma l1norm_regularized_evaluate_needs_a_parameter_witness :
  loss._evaluate l1_penalized = loss.evaluate_w_regularization /\
  loss.evaluate l1_penalized []
  = Raise (IndexError "tuple index out of range").
Proof.
  split; [reflexivity|].
  exact (l1norm_regularized_evaluate_needs_a_parameter l1_penalized
           (Arr [0; 0]) eq_refl eq_refl eq_refl).
Defined.

(** X9 at a regularization that returns NaN: the loss of the data [1, 2]
    against the model [0, 0] comes out as 0. *)
Lemma l1norm_nan_penalty_witness :
  nan_penalty [ArgSeq [7]] = Ok (Num nan) /\
  loss.evaluate l1_nan_penalized ([7] ++ [1]) = Ok 0.
Proof.
  split; [reflexivity|].
  refine (l1norm_nan_penalty_hides_the_residuals l1_nan_penalized nan_penalty
            [7] 1 [0; 0] nan eq_refl eq_refl eq_refl eq_refl eq_refl _).
  repeat constructor.
Defined.

End MoreFloatExamples.
